(** * create_icons.py: a shallow embedding of the icon generator

    The script draws the label "A한" on a square blue canvas, once per
    configured size, and saves each canvas as a PNG under [dist/icons].

    Layout of the development:
    - [Py]: the fragment of the Python runtime the script relies on
      (exceptions, binary64 arithmetic behind [int(size * 0.4)], text
      written by [print]);
    - [PIL]: the drawing collaborator (fonts, bounding boxes, canvases);
    - [OS]: paths and the two filesystem calls the script makes;
    - the script itself: [create_icon], the import guard and the driver;
    - the properties. *)

From Stdlib Require Import ZArith Lia List Bool Ascii.
From Stdlib Require Import Floats.SpecFloat.
From stdpp Require Import gmap strings pretty.

Open Scope Z_scope.

(* ===================================================================== *)
(** ** Python runtime                                                     *)
(* ===================================================================== *)

Module Py.

(** Exception classes that can reach the script. *)
Inductive exn :=
| ImportError
| ModuleNotFoundError
| OSError
| FileNotFoundError
| FileExistsError
| NotADirectoryError
| IsADirectoryError
| PermissionError
| ValueError
| UnicodeEncodeError
| OverflowError
| MemoryError
| RecursionError
| KeyboardInterrupt
| SystemExit (code : Z).

(** [isinstance(e, ImportError)]: the class itself and its subclass. *)
Definition is_ImportError (e : exn) : bool :=
  match e with
  | ImportError | ModuleNotFoundError => true
  | _ => false
  end.

(** [isinstance(e, OSError)]. *)
Definition is_OSError (e : exn) : bool :=
  match e with
  | OSError | FileNotFoundError | FileExistsError | NotADirectoryError
  | IsADirectoryError | PermissionError => true
  | _ => false
  end.

(** [isinstance(e, FileExistsError)]. *)
Definition is_FileExistsError (e : exn) : bool :=
  match e with
  | FileExistsError => true
  | _ => false
  end.

(** An expression either yields a value or raises. *)
Inductive result (A : Type) :=
| Ok (a : A)
| Raise (e : exn).
Arguments Ok {A} a.
Arguments Raise {A} e.

Definition rbind {A B} (r : result A) (k : A -> result B) : result B :=
  match r with
  | Ok a => k a
  | Raise e => Raise e
  end.

Definition rmap {A B} (f : A -> B) (r : result A) : result B :=
  rbind r (fun a => Ok (f a)).

(** *** Floats: IEEE 754 binary64, as CPython's [float]. *)

Definition prec : Z := 53.
Definition emax : Z := 1024.

(** The literal [0.4], i.e. [0x1.999999999999ap-2]. *)
Definition float_0_4 : spec_float := S754_finite false 7205759403792794 (-54).

(** Conversion of an [int] operand when it meets a [float] one:
    correctly rounded (ties to even); an [int] beyond the range of a
    double raises [OverflowError]. *)
Definition float_of_int (n : Z) : result spec_float :=
  match binary_normalize prec emax n 0 false with
  | S754_infinity _ => Raise OverflowError
  | f => Ok f
  end.

(** [n * y] for an [int] [n] and a [float] [y]. *)
Definition int_mul_float (n : Z) (y : spec_float) : result spec_float :=
  rbind (float_of_int n) (fun x => Ok (SFmul prec emax x y)).

(** The integer [s * m], the signed mantissa of a finite float. *)
Definition signed (s : bool) (m : positive) : Z := cond_Zopp s (Zpos m).

(** [int(f)]: truncation toward zero. *)
Definition int_of_float (f : spec_float) : result Z :=
  match f with
  | S754_zero _ => Ok 0
  | S754_finite s m e =>
      Ok (if 0 <=? e then signed s m * 2 ^ e else Z.quot (signed s m) (2 ^ (- e)))
  | S754_infinity _ => Raise OverflowError
  | S754_nan => Raise ValueError
  end.

(** [math.floor(f)]: the largest integer not above [f]. *)
Definition floor_of_float (f : spec_float) : result Z :=
  match f with
  | S754_zero _ => Ok 0
  | S754_finite s m e =>
      Ok (if 0 <=? e then signed s m * 2 ^ e else Z.div (signed s m) (2 ^ (- e)))
  | S754_infinity _ => Raise OverflowError
  | S754_nan => Raise ValueError
  end.

(** [a // b] on [int]s (floor division); [Z.div] rounds the same way. *)
Definition floordiv (a b : Z) : Z := a / b.

(** [str(n)] for an [int]. *)
Definition str (n : Z) : string := pretty n.

(** The line feed. *)
Definition LF : ascii := "010"%char.
Definition nl : string := String LF EmptyString.

(** [text.split("\n")] without the empty piece after a final line feed:
    the lines a terminal shows. *)
Fixpoint lines_from (cur : string) (s : string) : list string :=
  match s with
  | EmptyString => if String.eqb cur "" then [] else [String.rev cur]
  | String c s' =>
      if Ascii.eqb c LF then String.rev cur :: lines_from "" s'
      else lines_from (String c cur) s'
  end.

Definition lines (s : string) : list string := lines_from "" s.

End Py.

Export Py.

(* ===================================================================== *)
(** ** The drawing collaborator (Pillow)                                  *)
(* ===================================================================== *)

Module PIL.

(** A font handle records how it was obtained. *)
Inductive Font :=
| FreeTypeFont (path : string) (size : Z)   (* ImageFont.truetype(path, size) *)
| DefaultFont (size : option Z).            (* ImageFont.load_default(size=None) *)

(** A bounding box, the 4-tuple [(left, top, right, bottom)]:
    [bbox[0]], [bbox[1]], [bbox[2]], [bbox[3]]. *)
Record Box := { b_left : Z; b_top : Z; b_right : Z; b_bottom : Z }.

(** One [draw.text] call. *)
Record TextOp := {
  op_xy : Z * Z;
  op_text : string;
  op_fill : string;
  op_font : Font
}.

(** A canvas: how it was allocated and what was drawn on it, in order.
    Its pixels are a function of these. *)
Record Image := {
  im_mode : string;
  im_size : Z * Z;
  im_color : string;
  im_drawn : list TextOp
}.

Definition width (img : Image) : Z := fst (im_size img).
Definition height (img : Image) : Z := snd (im_size img).

(** A canvas nothing is drawn on yet, and a canvas with one more label. *)
Definition blank (mode : string) (size : Z * Z) (color : string) : Image :=
  {| im_mode := mode; im_size := size; im_color := color; im_drawn := [] |}.

Definition labelled (img : Image) (xy : Z * Z) (text fill : string) (font : Font) : Image :=
  {| im_mode := im_mode img; im_size := im_size img; im_color := im_color img;
     im_drawn := im_drawn img ++
       [{| op_xy := xy; op_text := text; op_fill := fill; op_font := font |}] |}.

(** [Image.new(mode, size, color=color)].  A negative edge is refused
    with [ValueError]; an edge that does not fit a C [int] raises
    [OverflowError]; [fault] is what the host refuses beyond that (no
    memory for the pixels). *)
Definition Image_new (fault : Z * Z -> option exn) (mode : string) (size : Z * Z)
    (color : string) : result Image :=
  if (fst size <? 0) || (snd size <? 0) then Raise ValueError
  else if (2 ^ 31 <=? fst size) || (2 ^ 31 <=? snd size) then Raise OverflowError
  else
    match fault size with
    | Some e => Raise e
    | None => Ok (blank mode size color)
    end.

(** What the font machinery of the host answers: which font files fail
    to load (and how); the ink box [font.getbbox(text)] of a text set at
    the origin, for a text the font can lay out; which texts a font cannot
    lay out (a bitmap font and a character outside its encoding); which
    labels the rasteriser fails to paint. *)
Record Fonts := {
  truetype_fault : string -> Z -> option exn;
  getbbox : Font -> string -> Box;
  text_fault : Font -> string -> option exn;
  draw_fault : TextOp -> option exn
}.

(** [ImageFont.truetype(path, size)]. *)
Definition truetype (F : Fonts) (path : string) (size : Z) : result Font :=
  match truetype_fault F path size with
  | Some e => Raise e
  | None => Ok (FreeTypeFont path size)
  end.

(** [ImageFont.load_default(size)]: the built-in font, always there. *)
Definition load_default (size : option Z) : Font := DefaultFont size.

(** A box moved by [xy]. *)
Definition box_at (b : Box) (xy : Z * Z) : Box :=
  {| b_left := b_left b + fst xy; b_top := b_top b + snd xy;
     b_right := b_right b + fst xy; b_bottom := b_bottom b + snd xy |}.

(** [draw.textbbox(xy, text, font=font)]: the ink box of [text] drawn at
    [xy], i.e. [font.getbbox(text)] moved by [xy]; it raises when the
    font cannot lay the text out. *)
Definition textbbox (F : Fonts) (xy : Z * Z) (text : string) (font : Font) : result Box :=
  match text_fault F font text with
  | Some e => Raise e
  | None => Ok (box_at (getbbox F font text) xy)
  end.

(** [draw.text(xy, text, fill=fill, font=font)] on the canvas [draw]
    was made for: the text is laid out as for [textbbox], then painted;
    the canvas is updated in place. *)
Definition draw_text (F : Fonts) (img : Image) (xy : Z * Z) (text fill : string)
    (font : Font) : result Image :=
  match text_fault F font text with
  | Some e => Raise e
  | None =>
      match draw_fault F {| op_xy := xy; op_text := text; op_fill := fill;
                            op_font := font |} with
      | Some e => Raise e
      | None => Ok (labelled img xy text fill font)
      end
  end.

(** Where the ink of a painted label lands on the canvas. *)
Definition ink_box (F : Fonts) (op : TextOp) : Box :=
  box_at (getbbox F (op_font op) (op_text op)) (op_xy op).

(** Formats [Image.save] picks from the file extension. *)
Definition format_of_extension (ext : string) : option string :=
  if String.eqb ext ".png" then Some "PNG"
  else if String.eqb ext ".jpg" then Some "JPEG"
  else if String.eqb ext ".jpeg" then Some "JPEG"
  else if String.eqb ext ".gif" then Some "GIF"
  else if String.eqb ext ".bmp" then Some "BMP"
  else None.

End PIL.

Export PIL.

(* ===================================================================== *)
(** ** The process: standard output, filesystem, exit status              *)
(* ===================================================================== *)

(** A file: an encoded image, or anything else. *)
Inductive file :=
| ImageFile (format : string) (img : Image)
| OtherFile (content : string).

(** Filesystem changes, in the order they happened. *)
Inductive effect :=
| Mkdir (path : string)
| Write (path : string) (f : file).

Record World := {
  stdout : string;
  dirs : gset string;
  files : gmap string file;
  journal : list effect
}.

(** Statements: they change the world and yield a value or raise. *)
Definition M (A : Type) : Type := World -> World * result A.

Definition ret {A} (a : A) : M A := fun w => (w, Ok a).
Definition raise {A} (e : exn) : M A := fun w => (w, Raise e).
Definition bind {A B} (c : M A) (k : A -> M B) : M B :=
  fun w =>
    match c w with
    | (w', Ok a) => k a w'
    | (w', Raise e) => (w', Raise e)
    end.
Definition lift {A} (r : result A) : M A := fun w => (w, r).

Notation "'let*' x := c1 'in' c2" := (bind c1 (fun x => c2))
  (at level 10, x name, c1 at level 100, c2 at level 200).
Notation "c1 ;; c2" := (bind c1 (fun _ => c2))
  (at level 100, c2 at level 200, right associativity).

(** [try: c  except <classes>: h], where [catches e] says whether the
    clause matches. *)
Definition try_except {A} (c : M A) (catches : exn -> bool) (h : exn -> M A) : M A :=
  fun w =>
    match c w with
    | (w', Ok a) => (w', Ok a)
    | (w', Raise e) => if catches e then h e w' else (w', Raise e)
    end.

(** [for x in xs: body]. *)
Fixpoint for_each {A} (xs : list A) (body : A -> M unit) : M unit :=
  match xs with
  | [] => ret tt
  | x :: xs' => body x ;; for_each xs' body
  end.

(** Standard output with one more line. *)
Definition printed (w : World) (s : string) : World :=
  {| stdout := stdout w +:+ s +:+ nl; dirs := dirs w; files := files w;
     journal := journal w |}.

(** [print(s)]: the text and a line feed; [fault] is what the stream
    refuses (a text its encoding cannot represent), and a refused text
    leaves the output as it was. *)
Definition print (fault : string -> option exn) (s : string) : M unit :=
  fun w =>
    match fault s with
    | Some e => (w, Raise e)
    | None => (printed w s, Ok tt)
    end.

(** [exit(code)]. *)
Definition exit {A} (code : Z) : M A := raise (SystemExit code).

(** The exit status the interpreter reports for the outcome of the
    top-level script. *)
Definition exit_status (r : result unit) : Z :=
  match r with
  | Ok _ => 0
  | Raise (SystemExit code) => code
  | Raise _ => 1
  end.

Definition set_fs (w : World) (d : gset string) (f : gmap string file)
    (j : list effect) : World :=
  {| stdout := stdout w; dirs := d; files := f; journal := j |}.

(** The world a run starts in: nothing printed yet, nothing done yet. *)
Definition boot (d : gset string) (f : gmap string file) : World :=
  {| stdout := ""; dirs := d; files := f; journal := [] |}.

(* ===================================================================== *)
(** ** Paths and filesystem calls                                         *)
(* ===================================================================== *)

Module OS.

(** Cut [s] after the last [c]: [(s[:i], s[i:])] with [i = s.rfind(c) + 1];
    [None] when [c] does not occur. *)
Fixpoint rcut (c : ascii) (s : string) : option (string * string) :=
  match s with
  | EmptyString => None
  | String a s' =>
      match rcut c s' with
      | Some (h, t) => Some (String a h, t)
      | None => if Ascii.eqb a c then Some (String a EmptyString, s') else None
      end
  end.

(** [s.rstrip(c)]. *)
Fixpoint rstrip (c : ascii) (s : string) : string :=
  match s with
  | EmptyString => EmptyString
  | String a s' =>
      let r := rstrip c s' in
      if String.eqb r "" && Ascii.eqb a c then EmptyString else String a r
  end.

(** [os.path.split(p)]: the pair (head, tail); the head loses its final
    slashes unless it consists of slashes only. *)
Definition split (p : string) : string * string :=
  match rcut "/" p with
  | None => ("", p)
  | Some (head, tail) =>
      let h := rstrip "/" head in
      (if String.eqb h "" then head else h, tail)
  end.

Definition dirname (p : string) : string := fst (split p).

Definition lower_ascii (c : ascii) : ascii :=
  let n := nat_of_ascii c in
  if (65 <=? n)%nat && (n <=? 90)%nat then ascii_of_nat (n + 32) else c.

Fixpoint lower (s : string) : string :=
  match s with
  | EmptyString => EmptyString
  | String a s' => String (lower_ascii a) (lower s')
  end.

(** [os.path.splitext(p)[1]]: from the last dot of the last component,
    dots that start the component apart. *)
Definition extension (p : string) : string :=
  match rcut "." (snd (split p)) with
  | None => ""
  | Some (stem, ext) => if String.eqb (rstrip "." stem) "" then "" else "." +:+ ext
  end.

(** [os.path.isdir], [os.path.exists].  An entry is known by the
    spelling of its path: the paths of the script are relative, without
    a final slash and without "." or ".." components, and no other
    spelling of them is resolved. *)
Definition isdir (w : World) (p : string) : bool := bool_decide (p ∈ dirs w).

Definition exists_ (w : World) (p : string) : bool :=
  isdir w p || match files w !! p with Some _ => true | None => false end.

(** The directory a new entry [p] goes into is there; the empty head is
    the working directory. *)
Definition parent_ok (w : World) (p : string) : bool :=
  String.eqb (dirname p) "" || isdir w (dirname p).

(** The error for an entry whose parent is not a directory. *)
Definition parent_error (w : World) (p : string) : exn :=
  if exists_ w (dirname p) then NotADirectoryError else FileNotFoundError.

(** [os.mkdir(path)]; [fault] is what the host refuses (permissions,
    read-only or full volume). *)
Definition mkdir (fault : string -> option exn) (path : string) : M unit :=
  fun w =>
    if exists_ w path then (w, Raise FileExistsError)
    else if negb (parent_ok w path) then (w, Raise (parent_error w path))
    else
      match fault path with
      | Some e => (w, Raise e)
      | None =>
          (set_fs w ({[ path ]} ∪ dirs w) (files w) (journal w ++ [Mkdir path]), Ok tt)
      end.

(** [os.makedirs(name, exist_ok=exist_ok)], by recursion on the head of
    the path; [depth] bounds the recursion. *)
Fixpoint makedirs_rec (depth : nat) (fault : string -> option exn)
    (name : string) (exist_ok : bool) : M unit :=
  match depth with
  | O => raise RecursionError
  | S depth' =>
      let (head, tail) :=
        let (head, tail) := split name in
        if String.eqb tail "" then split head else (head, tail) in
      let parents : M bool :=
        fun w =>
          if negb (String.eqb head "") && negb (String.eqb tail "")
             && negb (exists_ w head)
          then
            (try_except (makedirs_rec depth' fault head exist_ok)
               is_FileExistsError (fun _ => ret tt) ;;
             ret (String.eqb tail ".")) w
          else (w, Ok false) in
      let* done := parents in
      if done then ret tt
      else
        try_except (mkdir fault name) is_OSError
          (fun e w =>
             if negb exist_ok || negb (isdir w name) then (w, Raise e)
             else (w, Ok tt))
  end.

(** A path has fewer heads than characters, so the bound is never met. *)
Definition makedirs (fault : string -> option exn) (name : string)
    (exist_ok : bool) : M unit :=
  makedirs_rec (S (String.length name)) fault name exist_ok.

(** [img.save(filename)]: the format comes from the extension, then the
    file is opened for writing and the encoded image written. *)
Definition save (fault : string -> option exn) (img : Image) (filename : string) : M unit :=
  fun w =>
    match format_of_extension (lower (extension filename)) with
    | None => (w, Raise ValueError)
    | Some fmt =>
        if isdir w filename then (w, Raise IsADirectoryError)
        else if negb (parent_ok w filename) then (w, Raise (parent_error w filename))
        else
          match fault filename with
          | Some e => (w, Raise e)
          | None =>
              (set_fs w (dirs w) (<[ filename := ImageFile fmt img ]> (files w))
                 (journal w ++ [Write filename (ImageFile fmt img)]), Ok tt)
          end
    end.

End OS.

(* ===================================================================== *)
(** ** The script                                                         *)
(* ===================================================================== *)

(** The host a run meets. *)
Record Env := {
  import_PIL : option exn;              (* how [from PIL import ...] fails, if it does *)
  fonts : Fonts;
  new_fault : Z * Z -> option exn;      (* canvases [Image.new] cannot allocate *)
  mkdir_fault : string -> option exn;
  save_fault : string -> option exn;
  print_fault : string -> option exn    (* texts standard output cannot take *)
}.

Definition arial : string := "/System/Library/Fonts/Supplemental/Arial.ttf".
Definition text : string := "A한".
Definition sizes : list Z := [16; 48; 128].
Definition output_dir : string := "dist/icons".

(** [font_size = int(size * 0.4)]. *)
Definition font_size (size : Z) : result Z :=
  rbind (int_mul_float size float_0_4) int_of_float.

(** [try: font = ImageFont.truetype(arial, font_size)]
    [except: font = ImageFont.load_default()]. *)
Definition font (F : Fonts) (font_size : Z) : Font :=
  match truetype F arial font_size with
  | Ok f => f
  | Raise _ => load_default None
  end.

Definition text_width (bbox : Box) : Z := b_right bbox - b_left bbox.
Definition text_height (bbox : Box) : Z := b_bottom bbox - b_top bbox.

(** [create_icon(size)].  [draw = ImageDraw.Draw(img)] is the drawing
    context of [img]: [draw.textbbox] measures, [draw.text] paints on
    [img] itself, which is what the function returns.  Only the font
    load is inside a [try]: what [Image.new], [draw.textbbox] or
    [draw.text] raise leaves the function. *)
Definition create_icon (E : Env) (size : Z) : M Image :=
  let* img := lift (Image_new (new_fault E) "RGB" (size, size) "#4A90E2") in
  let* font_size := lift (font_size size) in
  let font := font (fonts E) font_size in
  let* bbox := lift (textbbox (fonts E) (0, 0) text font) in
  let x := floordiv (size - text_width bbox) 2 in
  let y := floordiv (size - text_height bbox) 2 in
  lift (draw_text (fonts E) img (x, y) text "white" font).

(** [f"{output_dir}/icon{size}.png"]. *)
Definition filename (size : Z) : string :=
  output_dir +:+ "/icon" +:+ str size +:+ ".png".

(** The guarded import at the top of the script. *)
Definition import_guard (E : Env) : M unit :=
  try_except
    (lift match import_PIL E with Some e => Raise e | None => Ok tt end)
    is_ImportError
    (fun _ =>
       print (print_fault E) "Pillow 라이브러리가 필요합니다." ;;
       print (print_fault E) "설치: pip install Pillow" ;;
       exit 1).

(** The body of [for size in sizes]. *)
Definition loop_body (E : Env) (size : Z) : M unit :=
  let* img := create_icon E size in
  OS.save (save_fault E) img (filename size) ;;
  print (print_fault E) ("✓ " +:+ filename size +:+ " 생성 완료").

(** The module body, top to bottom: the guarded import, [os.makedirs],
    the loop over [sizes], the two closing [print]s. *)
Definition script (E : Env) : M unit :=
  import_guard E ;;
  OS.makedirs (mkdir_fault E) output_dir true ;;
  for_each sizes (loop_body E) ;;
  print (print_fault E) (nl +:+ "모든 아이콘이 생성되었습니다!") ;;
  print (print_fault E) ("위치: " +:+ output_dir +:+ "/").

(** The one [draw.text] call [create_icon] makes for a font size. *)
Definition label_op (F : Fonts) (size fs : Z) : TextOp :=
  let f := font F fs in
  let bbox := box_at (getbbox F f text) (0, 0) in
  {| op_xy := (floordiv (size - text_width bbox) 2, floordiv (size - text_height bbox) 2);
     op_text := text; op_fill := "white"; op_font := f |}.

(** The canvas [create_icon] returns for a font size, when the
    collaborator carries out what it is asked. *)
Definition icon_with (F : Fonts) (size fs : Z) : Image :=
  let f := font F fs in
  let bbox := box_at (getbbox F f text) (0, 0) in
  labelled (blank "RGB" (size, size) "#4A90E2")
    (floordiv (size - text_width bbox) 2, floordiv (size - text_height bbox) 2)
    text "white" f.

(** The collaborator carries out the three calls [create_icon] makes for
    [size] with the font size [fs]: the canvas is allocated, the label
    laid out and painted. *)
Definition renders (E : Env) (size fs : Z) : Prop :=
  Image_new (new_fault E) "RGB" (size, size) "#4A90E2"
    = Ok (blank "RGB" (size, size) "#4A90E2")
  /\ text_fault (fonts E) (font (fonts E) fs) text = None
  /\ draw_fault (fonts E) (label_op (fonts E) size fs) = None.

(** *** Vocabulary for the properties of a run *)

Definition is_mkdir (j : effect) : bool :=
  match j with
  | Mkdir _ => true
  | Write _ _ => false
  end.

(** The directories a stretch of the journal created. *)
Fixpoint made (js : list effect) : gset string :=
  match js with
  | [] => ∅
  | Mkdir p :: js' => {[ p ]} ∪ made js'
  | Write _ _ :: js' => made js'
  end.

(** [w'] comes from [w] by creating directories only. *)
Definition grows (w w' : World) : Prop :=
  stdout w' = stdout w
  /\ files w' = files w
  /\ exists js, journal w' = journal w ++ js
       /\ forallb is_mkdir js = true
       /\ dirs w' = made js ∪ dirs w.

(** How [makedirs(output_dir, exist_ok=True)] can have succeeded from
    [w], by the directories [mk] it created. *)
Definition ensured (w : World) (mk : list effect) : Prop :=
  (mk = [] /\ OS.isdir w output_dir = true)
  \/ (mk = [Mkdir output_dir]
      /\ OS.isdir w "dist" = true /\ OS.exists_ w output_dir = false)
  \/ (mk = [Mkdir "dist"; Mkdir output_dir]
      /\ OS.exists_ w "dist" = false /\ OS.exists_ w output_dir = false)
  \/ (mk = [Mkdir "dist"]
      /\ OS.exists_ w "dist" = false /\ OS.isdir w output_dir = true).

(** The two lines printed when Pillow cannot be imported. *)
Definition import_failure_lines : list string :=
  ["Pillow 라이브러리가 필요합니다."; "설치: pip install Pillow"].

(** The confirmation line for one size. *)
Definition confirmation (size : Z) : string :=
  "✓ " +:+ filename size +:+ " 생성 완료".

Definition completion_line : string := "모든 아이콘이 생성되었습니다!".
Definition location_line : string := "위치: " +:+ output_dir +:+ "/".

(** What a run that reaches its end has printed, line by line. *)
Definition success_lines : list string :=
  [confirmation 16; confirmation 48; confirmation 128;
   ""; completion_line; location_line].

(** The world in which the loop starts once [makedirs] is through,
    having created [mk]. *)
Definition ready (d : gset string) (f : gmap string file) (mk : list effect) : World :=
  set_fs (boot d f) (made mk ∪ d) f mk.

(** The world after one round of the loop went through: the icon is on
    disk and its confirmation printed. *)
Definition after_round (E : Env) (size fs : Z) (w : World) : World :=
  {| stdout := stdout w +:+ confirmation size +:+ nl;
     dirs := dirs w;
     files := <[ filename size := ImageFile "PNG" (icon_with (fonts E) size fs) ]> (files w);
     journal := journal w ++
       [Write (filename size) (ImageFile "PNG" (icon_with (fonts E) size fs))] |}.

(** The world after the two closing [print]s. *)
Definition after_summary (w : World) : World :=
  {| stdout := (stdout w +:+ (nl +:+ completion_line) +:+ nl) +:+ location_line +:+ nl;
     dirs := dirs w; files := files w; journal := journal w |}.

(** Two hosts offer the same fonts: Arial loads on one exactly when it
    loads on the other, and every font measures the label alike. *)
Definition same_fonts (F1 F2 : Fonts) : Prop :=
  (forall px, truetype_fault F1 arial px = None <-> truetype_fault F2 arial px = None)
  /\ (forall f, getbbox F1 f text = getbbox F2 f text).

(** [font_size] agrees with exact arithmetic, [2 * size // 5], on the
    [n] sizes from [size] on. *)
Fixpoint font_size_exact_from (size : Z) (n : nat) : bool :=
  match n with
  | O => true
  | S n' =>
      match font_size size with
      | Ok v => v =? 2 * size / 5
      | Raise _ => false
      end && font_size_exact_from (size + 1) n'
  end.

(** The margins [draw.text] leaves around the ink of [op] on a canvas of
    edge [size]: left, right, top, bottom. *)
Definition margin_left (F : Fonts) (op : TextOp) : Z := b_left (ink_box F op).
Definition margin_right (F : Fonts) (size : Z) (op : TextOp) : Z :=
  size - b_right (ink_box F op).
Definition margin_top (F : Fonts) (op : TextOp) : Z := b_top (ink_box F op).
Definition margin_bottom (F : Fonts) (size : Z) (op : TextOp) : Z :=
  size - b_bottom (ink_box F op).

(** The ink of [op] sits exactly in the middle of the canvas: the left
    margin is [size - width - left margin], and likewise vertically. *)
Definition centred (F : Fonts) (size : Z) (op : TextOp) : bool :=
  let b := ink_box F op in
  (b_left b =? size - text_width b - b_left b)
  && (b_top b =? size - text_height b - b_top b).

(** *** Sample hosts *)

Fixpoint string_forall (P : ascii -> bool) (s : string) : bool :=
  match s with
  | EmptyString => true
  | String c s' => P c && string_forall P s'
  end.

(** The text (UTF-8) holds ASCII characters only: no byte from 128 on. *)
Definition is_ascii_text (s : string) : bool :=
  string_forall (fun c => (nat_of_ascii c <? 128)%nat) s.


(** Ink boxes in the style of a scalable font: no left bearing, the ink
    starts a quarter of the pixel size below the anchor. *)
Definition sample_getbbox (f : Font) (t : string) : Box :=
  match f with
  | FreeTypeFont _ px =>
      {| b_left := 0; b_top := px / 4; b_right := px + px / 2; b_bottom := px |}
  | DefaultFont _ =>
      {| b_left := 0; b_top := 3; b_right := 20; b_bottom := 11 |}
  end.

(** A font whose ink box starts at the anchor. *)
Definition flush_getbbox (f : Font) (t : string) : Box :=
  match f with
  | FreeTypeFont _ px =>
      {| b_left := 0; b_top := 0; b_right := px + px / 2; b_bottom := px |}
  | DefaultFont _ =>
      {| b_left := 0; b_top := 0; b_right := 11; b_bottom := 8 |}
  end.

Definition no_fault (p : string) : option exn := None.

(** Fonts that lay out and paint every text. *)
Definition able_fonts (load : string -> Z -> option exn)
    (boxes : Font -> string -> Box) : Fonts :=
  {| truetype_fault := load; getbbox := boxes;
     text_fault := fun _ _ => None; draw_fault := fun _ => None |}.


(** A host that refuses nothing, with the given fonts. *)
Definition host (F : Fonts) : Env :=
  {| import_PIL := None; fonts := F; new_fault := fun _ => None;
     mkdir_fault := no_fault; save_fault := no_fault; print_fault := no_fault |}.

(** Arial is installed. *)
Definition mac_host : Env := host (able_fonts (fun _ _ => None) sample_getbbox).

(** Arial is missing: the loader raises [OSError]. *)
Definition bare_host : Env := host (able_fonts (fun _ _ => Some OSError) sample_getbbox).

(** Arial is missing and the built-in font has no bearings. *)
Definition flush_host : Env := host (able_fonts (fun _ _ => Some OSError) flush_getbbox).



(** Pillow is not installed. *)
Definition no_pillow_host : Env :=
  {| import_PIL := Some ModuleNotFoundError;
     fonts := able_fonts (fun _ _ => Some OSError) sample_getbbox;
     new_fault := fun _ => None;
     mkdir_fault := no_fault; save_fault := no_fault; print_fault := no_fault |}.

(** The volume fills up after the first icon: the write of the second
    is refused. *)
Definition full_disk_host : Env :=
  {| import_PIL := None;
     fonts := able_fonts (fun _ _ => None) sample_getbbox;
     new_fault := fun _ => None;
     mkdir_fault := no_fault;
     save_fault := fun p =>
       if String.eqb p "dist/icons/icon48.png" then Some OSError else None;
     print_fault := no_fault |}.

(** Standard output is an ASCII stream. *)
Definition ascii_terminal_host : Env :=
  {| import_PIL := None;
     fonts := able_fonts (fun _ _ => None) sample_getbbox;
     new_fault := fun _ => None;
     mkdir_fault := no_fault; save_fault := no_fault;
     print_fault := fun s => if is_ascii_text s then None else Some UnicodeEncodeError |}.

(** *** Vocabulary for the outcomes of a run *)

(** The rounds of the loop: each size with its font size. *)
Definition plan : list (Z * Z) := [(16, 6); (48, 19); (128, 51)].

(** The world after the rounds of [rounds] went through, in order. *)
Fixpoint after_rounds (E : Env) (rounds : list (Z * Z)) (w : World) : World :=
  match rounds with
  | [] => w
  | (size, fs) :: rest => after_rounds E rest (after_round E size fs w)
  end.

(** The file one round leaves, and the journal entry for it. *)
Definition icon_file (E : Env) (round : Z * Z) : file :=
  ImageFile "PNG" (icon_with (fonts E) (fst round) (snd round)).

Definition write_of (E : Env) (round : Z * Z) : effect :=
  Write (filename (fst round)) (icon_file E round).

(** The world in the middle of a round: the icon is on disk, its
    confirmation not printed yet. *)
Definition written (E : Env) (round : Z * Z) (w : World) : World :=
  set_fs w (dirs w) (<[ filename (fst round) := icon_file E round ]> (files w))
    (journal w ++ [write_of E round]).


(** The texts a run hands to [print], in order. *)
Definition closing_prints : list string := [nl +:+ completion_line; location_line].
Definition script_prints : list string := map confirmation sizes ++ closing_prints.

(** Standard output takes each of the texts. *)
Definition accepts (E : Env) (texts : list string) : Prop :=
  forall t, In t texts -> print_fault E t = None.

(** The steps of a run after the import, where an exception can arise:
    [makedirs]; in round [k] (from 0) [create_icon], [img.save] and the
    confirming [print]; the two closing [print]s. *)
Inductive phase := Drawing | Saving | Confirming.

Inductive step :=
| AtMakedirs
| InRound (k : nat) (p : phase)
| AtCompletion
| AtLocation.


Definition confirmed_before (s : step) : nat :=
  match s with
  | AtMakedirs => 0
  | InRound k _ => k
  | AtCompletion | AtLocation => 3
  end.

Definition closing_before (s : step) : list string :=
  match s with
  | AtLocation => [""; completion_line]
  | _ => []
  end.

(** The world in which a step is taken, [makedirs] having created [mk]
    (for [makedirs] itself: the world it leaves). *)
Definition world_at (E : Env) (d : gset string) (f : gmap string file)
    (mk : list effect) (s : step) : World :=
  match s with
  | AtMakedirs => ready d f mk
  | InRound k Confirming =>
      written E (nth k plan (0, 0)) (after_rounds E (firstn k plan) (ready d f mk))
  | InRound k _ => after_rounds E (firstn k plan) (ready d f mk)
  | AtCompletion => after_rounds E plan (ready d f mk)
  | AtLocation => printed (after_rounds E plan (ready d f mk)) (nl +:+ completion_line)
  end.

(** The step [s] of the run from [boot d f] raises [e]: the call of the
    source made there, in the world reached, yields the exception and
    leaves the world as it is. *)
Definition raises_at (E : Env) (d : gset string) (f : gmap string file)
    (mk : list effect) (s : step) (e : exn) : Prop :=
  let w := world_at E d f mk s in
  match s with
  | AtMakedirs =>
      OS.makedirs (mkdir_fault E) output_dir true (boot d f) = (w, Raise e)
  | InRound k p =>
      (k < 3)%nat
      /\ let round := nth k plan (0, 0) in
         match p with
         | Drawing => create_icon E (fst round) w = (w, Raise e)
         | Saving =>
             OS.save (save_fault E) (icon_with (fonts E) (fst round) (snd round))
               (filename (fst round)) w = (w, Raise e)
         | Confirming =>
             print (print_fault E) (confirmation (fst round)) w = (w, Raise e)
         end
  | AtCompletion => print (print_fault E) (nl +:+ completion_line) w = (w, Raise e)
  | AtLocation => print (print_fault E) location_line w = (w, Raise e)
  end.

(** The directories [makedirs(output_dir)] may create. *)
Definition created_dirs (mk : list effect) : Prop :=
  mk = [] \/ mk = [Mkdir "dist"] \/ mk = [Mkdir output_dir]
  \/ mk = [Mkdir "dist"; Mkdir output_dir].

(** The characters [str] produces: the ten digits and the minus sign. *)
Definition is_digit (c : ascii) : bool :=
  let n := nat_of_ascii c in (48 <=? n)%nat && (n <=? 57)%nat.

Definition is_numeral_char (c : ascii) : bool :=
  is_digit c || Ascii.eqb c "-".

(** *** Tactics *)

(** Case analysis on [In size sizes]: one goal per configured size. *)
Ltac each_size Hin :=
  unfold sizes in Hin; cbn [In] in Hin;
  destruct Hin as [<-|[<-|[<-|[]]]].

(** Membership of a literal in [sizes]. *)
Ltac in_sizes := unfold sizes; cbn [In]; tauto.

(* ===================================================================== *)
(** ** Properties of the arithmetic                                       *)
(* ===================================================================== *)

Section Rounding.

(** Rounding keeps the sign it is given. *)
Lemma binary_round_aux_sign sx mx ex lx s m e :
  binary_round_aux prec emax sx mx ex lx = S754_finite s m e -> s = sx.
Proof.
  unfold binary_round_aux.
  destruct (shr_fexp prec emax mx ex lx) as [mrs' e'].
  destruct (shr_fexp prec emax _ e' loc_Exact) as [mrs'' e''].
  destruct (shr_m mrs'') as [|p|p]; try discriminate.
  destruct (e'' <=? emax - prec); [|discriminate].
  now intros [= <- _ _].
Qed.

Lemma float_of_int_sign n f s m e :
  0 < n -> float_of_int n = Ok f -> f = S754_finite s m e -> s = false.
Proof.
  intros Hn Hf ->. unfold float_of_int in Hf.
  destruct n as [|p|p]; try lia.
  cbn [binary_normalize] in Hf.
  destruct (binary_round prec emax false p 0) as [s0|s0| |s0 m0 e0] eqn:Hr;
    try discriminate.
  injection Hf as -> -> ->.
  unfold binary_round in Hr.
  destruct (shl_align p 0 _) as [mz ez].
  now apply binary_round_aux_sign in Hr.
Qed.

(** On a float that is not negative, truncation is the floor. *)
Lemma int_of_float_floor f :
  (forall s m e, f = S754_finite s m e -> s = false) ->
  int_of_float f = floor_of_float f.
Proof.
  intros Hs. destruct f as [s|s| |s m e]; try reflexivity.
  rewrite (Hs s m e eq_refl). cbn [int_of_float floor_of_float signed cond_Zopp].
  destruct (0 <=? e) eqn:He; [reflexivity|].
  f_equal. apply Z.quot_div_nonneg; [lia|].
  apply Z.pow_pos_nonneg; lia.
Qed.

Lemma mul_0_4_sign f s m e :
  (forall s' m' e', f = S754_finite s' m' e' -> s' = false) ->
  SFmul prec emax f float_0_4 = S754_finite s m e -> s = false.
Proof.
  intros Hs. unfold float_0_4.
  destruct f as [s0|s0| |s0 m0 e0]; cbn [SFmul]; try discriminate.
  intros H. apply binary_round_aux_sign in H.
  now rewrite (Hs s0 m0 e0 eq_refl) in H.
Qed.

Lemma font_size_exact_from_sound n : forall first size,
  font_size_exact_from first n = true ->
  first <= size < first + Z.of_nat n ->
  font_size size = Ok (2 * size / 5).
Proof.
  induction n as [|n IH]; intros first size Hall Hsize; [lia|].
  cbn [font_size_exact_from] in Hall. apply andb_true_iff in Hall as [Hhere Hrest].
  destruct (Z.eq_dec size first) as [->|Hne].
  - destruct (font_size first) as [v|e]; [|discriminate].
    f_equal. now apply Z.eqb_eq.
  - apply (IH (first + 1)); [assumption|lia].
Qed.

Lemma font_size_exact_small size :
  1 <= size <= 65536 -> font_size size = Ok (2 * size / 5).
Proof.
  intros Hsize.
  apply (font_size_exact_from_sound (Z.to_nat 65536) 1); [|lia].
  vm_compute. reflexivity.
Qed.

(** Beyond 2^52 the product is rounded to an integer and may exceed the
    exact [2 * size // 5]. *)
Example font_size_rounded_up :
  font_size (2 ^ 52 + 1) = Ok 1801439850948199
  /\ 2 * (2 ^ 52 + 1) / 5 = 1801439850948198.
Proof. split; vm_compute; reflexivity. Qed.

(** Beyond the range of a double, [size * 0.4] raises. *)
Example font_size_overflow : font_size (2 ^ 1024) = Raise OverflowError.
Proof. vm_compute; reflexivity. Qed.

End Rounding.

Section Range.

(** A number below [2 ^ k] has at most [k] binary digits. *)
Lemma digits2_pos_le p : forall k, 0 <= k -> Zpos p < 2 ^ k -> Zpos (digits2_pos p) <= k.
Proof.
  induction p as [p IH|p IH|]; intros k Hk Hlt; cbn [digits2_pos].
  - assert (0 < k) by (destruct (Z.eq_dec k 0) as [->|]; [cbn in Hlt|]; lia).
    replace k with (Z.succ (k - 1)) in Hlt by lia. rewrite Z.pow_succ_r in Hlt by lia.
    specialize (IH (k - 1) ltac:(lia) ltac:(lia)). lia.
  - assert (0 < k) by (destruct (Z.eq_dec k 0) as [->|]; [cbn in Hlt|]; lia).
    replace k with (Z.succ (k - 1)) in Hlt by lia. rewrite Z.pow_succ_r in Hlt by lia.
    specialize (IH (k - 1) ltac:(lia) ltac:(lia)). lia.
  - destruct (Z.eq_dec k 0) as [->|]; [cbn in Hlt|]; lia.
Qed.

Lemma Zdigits2_le m k : 0 <= k -> 0 <= m < 2 ^ k -> Zdigits2 m <= k.
Proof.
  intros Hk [Hm Hlt]. destruct m as [|p|p]; cbn [Zdigits2]; [lia| |lia].
  now apply digits2_pos_le.
Qed.

(** One shift halves the mantissa. *)
Lemma shr_1_m mrs : 0 <= shr_m mrs -> shr_m (shr_1 mrs) = shr_m mrs / 2.
Proof.
  destruct mrs as [m r s]. cbn [shr_m]. intros Hm.
  destruct m as [|p|p]; [reflexivity| |lia].
  destruct p as [p|p|]; cbn [shr_1 shr_m].
  - rewrite (Pos2Z.inj_xI p). apply Z.div_unique with (r := 1); lia.
  - rewrite (Pos2Z.inj_xO p). apply Z.div_unique with (r := 0); lia.
  - reflexivity.
Qed.

Lemma pow2_xO n : 2 ^ Zpos n~0 = 2 ^ Zpos n * 2 ^ Zpos n.
Proof.
  replace (Zpos n~0) with (Zpos n + Zpos n) by lia.
  apply Z.pow_add_r; lia.
Qed.

Lemma pow2_xI n : 2 ^ Zpos n~1 = 2 * (2 ^ Zpos n * 2 ^ Zpos n).
Proof.
  replace (Zpos n~1) with (Z.succ (Zpos n + Zpos n)) by lia.
  rewrite Z.pow_succ_r, Z.pow_add_r by lia. reflexivity.
Qed.

Lemma iter_shr_1_m n : forall mrs,
  0 <= shr_m mrs ->
  shr_m (SpecFloat.iter_pos shr_1 n mrs) = shr_m mrs / 2 ^ Zpos n.
Proof.
  assert (Hnonneg : forall a b, 0 <= a -> 0 < b -> 0 <= a / b)
    by (intros; apply Z.div_pos; lia).
  induction n as [n IH|n IH|]; intros mrs Hm; cbn [SpecFloat.iter_pos].
  - assert (H2n : 0 < 2 ^ Zpos n) by (apply Z.pow_pos_nonneg; lia).
    assert (H1 : 0 <= shr_m (shr_1 mrs))
      by (rewrite shr_1_m by assumption; apply Hnonneg; lia).
    assert (H2 : 0 <= shr_m (SpecFloat.iter_pos shr_1 n (shr_1 mrs)))
      by (rewrite IH by assumption; apply Hnonneg; lia).
    rewrite (IH _ H2), (IH _ H1), shr_1_m by assumption.
    rewrite !Z.div_div by lia. f_equal. rewrite pow2_xI. ring.
  - assert (H2n : 0 < 2 ^ Zpos n) by (apply Z.pow_pos_nonneg; lia).
    assert (H1 : 0 <= shr_m (SpecFloat.iter_pos shr_1 n mrs))
      by (rewrite IH by assumption; apply Hnonneg; lia).
    rewrite (IH _ H1), (IH _ Hm).
    rewrite !Z.div_div by lia. f_equal. now rewrite pow2_xO.
  - rewrite shr_1_m by assumption. reflexivity.
Qed.

Lemma shr_record_of_loc_m m l : shr_m (shr_record_of_loc m l) = m.
Proof. destruct l as [|[]]; reflexivity. Qed.

(** Rounding to nearest adds at most one. *)
Lemma round_nearest_even_bounds m l :
  m <= round_nearest_even m l <= m + 1.
Proof.
  destruct l as [|[]]; cbn [round_nearest_even]; try lia.
  destruct (Z.even m); lia.
Qed.

(** Aligning a mantissa below [2 ^ (k - e)] keeps it below
    [2 ^ (k - e')] at its new exponent [e'], which stays under
    [max e (k - 53)]. *)
Lemma shr_fexp_bound k m e l :
  0 <= k -> 0 <= m -> e <= k -> m < 2 ^ (k - e) ->
  0 <= shr_m (fst (shr_fexp prec emax m e l))
  /\ e <= snd (shr_fexp prec emax m e l) <= Z.max e (k - 53)
  /\ shr_m (fst (shr_fexp prec emax m e l))
     < 2 ^ (k - snd (shr_fexp prec emax m e l)).
Proof.
  intros Hk Hm He Hlt. unfold shr_fexp, shr.
  pose proof (Zdigits2_le m (k - e) ltac:(lia) ltac:(lia)) as Hd.
  assert (Hfexp : fexp prec emax (Zdigits2 m + e) <= Z.max e (k - 53)).
  { unfold fexp, SpecFloat.emin, prec, emax. lia. }
  destruct (fexp prec emax (Zdigits2 m + e) - e) as [|n|n] eqn:Hn;
    cbn [fst snd]; rewrite ?shr_record_of_loc_m; try (split; [lia|split; [lia|assumption]]).
  rewrite iter_shr_1_m by (rewrite shr_record_of_loc_m; lia).
  rewrite shr_record_of_loc_m.
  assert (H2n : 0 < 2 ^ Zpos n) by (apply Z.pow_pos_nonneg; lia).
  split; [apply Z.div_pos; lia|]. split; [lia|].
  apply Z.div_lt_upper_bound; [lia|].
  rewrite <- Z.pow_add_r by lia.
  now replace (Zpos n + (k - (e + Zpos n))) with (k - e) by lia.
Qed.

(** Rounding a non-negative mantissa worth less than [2 ^ 1023] yields
    zero or a finite float, never an infinity or a NaN. *)
Lemma binary_round_aux_finite sx mx ex lx :
  0 <= mx -> ex <= 971 -> mx < 2 ^ (1023 - ex) ->
  match binary_round_aux prec emax sx mx ex lx with
  | S754_zero _ => True
  | S754_finite _ m e => e <= 971 /\ Zpos m < 2 ^ (1024 - e)
  | _ => False
  end.
Proof.
  intros Hm He Hlt. unfold binary_round_aux.
  pose proof (shr_fexp_bound 1023 mx ex lx ltac:(lia) Hm ltac:(lia) Hlt) as (H1 & H2 & H3).
  destruct (shr_fexp prec emax mx ex lx) as [mrs' e']. cbn [fst snd] in H1, H2, H3.
  pose proof (round_nearest_even_bounds (shr_m mrs') (loc_of_shr_record mrs')) as Hr.
  set (m1 := round_nearest_even (shr_m mrs') (loc_of_shr_record mrs')) in *.
  assert (Hm1 : m1 < 2 ^ (1024 - e')).
  { replace (1024 - e') with (Z.succ (1023 - e')) by lia.
    rewrite Z.pow_succ_r by lia.
    assert (0 < 2 ^ (1023 - e')) by (apply Z.pow_pos_nonneg; lia). lia. }
  pose proof (shr_fexp_bound 1024 m1 e' loc_Exact ltac:(lia) ltac:(lia) ltac:(lia) Hm1)
    as (H4 & H5 & H6).
  destruct (shr_fexp prec emax m1 e' loc_Exact) as [mrs'' e'']. cbn [fst snd] in H4, H5, H6.
  destruct (shr_m mrs'') as [|m|m]; [exact I| |lia].
  unfold emax, prec. change (1024 - 53) with 971.
  destruct (e'' <=? 971) eqn:Hle; [|apply Z.leb_gt in Hle; lia].
  split; [lia|assumption].
Qed.

Lemma iter_xO_mul m d : Zpos (Pos.iter xO m d) = Zpos m * 2 ^ Zpos d.
Proof.
  revert m. induction d as [|d IH] using Pos.peano_ind; intros m.
  - cbn. lia.
  - rewrite Pos.iter_succ, Pos2Z.inj_xO, IH, Pos2Z.inj_succ, Z.pow_succ_r by lia. lia.
Qed.

(** An [int] below [2 ^ 1023] converts to a finite float. *)
Lemma float_of_int_finite n :
  0 < n < 2 ^ 1023 ->
  exists f, float_of_int n = Ok f
    /\ match f with
       | S754_zero _ => True
       | S754_finite _ m e => e <= 971 /\ Zpos m < 2 ^ (1024 - e)
       | _ => False
       end.
Proof.
  intros [Hpos Hlt]. destruct n as [|p|p]; try lia.
  unfold float_of_int. cbn [binary_normalize]. unfold binary_round.
  destruct (shl_align p 0 (fexp prec emax (Zpos (digits2_pos p) + 0))) as [mz ez] eqn:Hal.
  assert (Hin : ez <= 971 /\ Zpos mz < 2 ^ (1023 - ez)).
  { unfold shl_align in Hal.
    destruct (fexp prec emax (Zpos (digits2_pos p) + 0) - 0) as [|d|d] eqn:Hd;
      injection Hal as <- <-; try (split; [lia|exact Hlt]).
    assert (fexp prec emax (Zpos (digits2_pos p) + 0) = Zneg d) by lia.
    split; [lia|].
    rewrite iter_xO_mul. rewrite H.
    replace (1023 - Zneg d) with (1023 + Zpos d) by lia.
    rewrite Z.pow_add_r by lia.
    assert (0 < 2 ^ Zpos d) by (apply Z.pow_pos_nonneg; lia). nia. }
  destruct Hin as [He Hm].
  pose proof (binary_round_aux_finite false (Zpos mz) ez loc_Exact ltac:(lia) He Hm) as Hfin.
  destruct (binary_round_aux prec emax false (Zpos mz) ez loc_Exact) as [s|s| |s m e];
    try contradiction; eauto.
Qed.

(** The font size is defined on every positive size below [2 ^ 1023]. *)
Lemma font_size_defined size :
  0 < size < 2 ^ 1023 -> exists fs, font_size size = Ok fs.
Proof.
  intros Hsize. unfold font_size, int_mul_float.
  destruct (float_of_int_finite size Hsize) as (f & -> & Hf). cbn [rbind].
  destruct f as [s|s| |s m e]; try contradiction.
  - cbn [SFmul float_0_4 int_of_float]. eauto.
  - destruct Hf as [He Hm]. unfold float_0_4. cbn [SFmul].
    assert (Hfin := binary_round_aux_finite (xorb s false)
                      (Zpos (m * 7205759403792794)) (e + -54) loc_Exact).
    destruct (binary_round_aux prec emax (xorb s false)
                (Zpos (m * 7205759403792794)) (e + -54) loc_Exact) as [s'|s'| |s' m' e'];
      cbn [int_of_float]; eauto; exfalso; apply Hfin; try lia.
    all: rewrite Pos2Z.inj_mul;
      replace (1023 - (e + -54)) with ((1024 - e) + 53) by lia;
      rewrite Z.pow_add_r by lia;
      assert (7205759403792794 < 2 ^ 53) by (vm_compute; reflexivity);
      assert (0 < 2 ^ (1024 - e)) by (apply Z.pow_pos_nonneg; lia); nia.
Qed.

End Range.

(* ===================================================================== *)
(** ** Properties of [create_icon]                                        *)
(* ===================================================================== *)

Section CreateIcon.

Variable E : Env.

(** Moving the anchor moves the box and keeps its extent. *)
Lemma text_width_box_at b xy : text_width (box_at b xy) = text_width b.
Proof. unfold text_width, box_at; cbn. lia. Qed.

Lemma text_height_box_at b xy : text_height (box_at b xy) = text_height b.
Proof. unfold text_height, box_at; cbn. lia. Qed.

(** What a canvas [Image.new] returned tells. *)
Lemma Image_new_Ok fault mode size color img :
  Image_new fault mode size color = Ok img ->
  img = blank mode size color
  /\ 0 <= fst size < 2 ^ 31 /\ 0 <= snd size < 2 ^ 31
  /\ fault size = None.
Proof.
  unfold Image_new.
  destruct ((fst size <? 0) || (snd size <? 0)) eqn:Hneg; [discriminate|].
  destruct ((2 ^ 31 <=? fst size) || (2 ^ 31 <=? snd size)) eqn:Hbig; [discriminate|].
  destruct (fault size); [discriminate|]. intros [= <-].
  apply orb_false_iff in Hneg as [H1 H2]. apply orb_false_iff in Hbig as [H3 H4].
  apply Z.ltb_ge in H1, H2. apply Z.leb_gt in H3, H4. repeat split; assumption.
Qed.

(** When the collaborator carries out what it is asked, [create_icon]
    returns [icon_with] and touches nothing in the world. *)
Lemma create_icon_ok size fs w :
  font_size size = Ok fs -> renders E size fs ->
  create_icon E size w = (w, Ok (icon_with (fonts E) size fs)).
Proof.
  intros Hfs (Hnew & Htext & Hdraw).
  unfold create_icon, bind, lift. rewrite Hnew, Hfs.
  unfold textbbox, draw_text. rewrite Htext.
  unfold label_op in Hdraw. cbv zeta in Hdraw. now rewrite Hdraw.
Qed.

(** A canvas [create_icon] returned is [icon_with], and the collaborator
    has carried out what it was asked. *)
Lemma create_icon_Ok_inv size w w' img :
  create_icon E size w = (w', Ok img) ->
  w' = w
  /\ exists fs, font_size size = Ok fs /\ renders E size fs
       /\ img = icon_with (fonts E) size fs.
Proof.
  unfold create_icon, bind, lift.
  destruct (Image_new (new_fault E) "RGB" (size, size) "#4A90E2") as [canvas|e] eqn:Hnew;
    [|discriminate].
  destruct (Image_new_Ok _ _ _ _ _ Hnew) as (-> & _).
  destruct (font_size size) as [fs|e]; [|discriminate].
  unfold textbbox, draw_text, renders, label_op.
  destruct (text_fault (fonts E) (font (fonts E) fs) text) eqn:Htext; [discriminate|].
  cbv zeta.
  match goal with |- context [draw_fault (fonts E) ?op] =>
    destruct (draw_fault (fonts E) op) eqn:Hdraw end; [discriminate|].
  intros [= <- <-]. split; [reflexivity|]. exists fs. now repeat split.
Qed.

Lemma create_icon_world size w : fst (create_icon E size w) = w.
Proof.
  unfold create_icon, bind, lift.
  destruct (Image_new (new_fault E) "RGB" (size, size) "#4A90E2"); [|reflexivity].
  destruct (font_size size); [|reflexivity].
  destruct (textbbox _ _ _ _); [|reflexivity].
  now destruct (draw_text _ _ _ _ _ _).
Qed.

(** [create_icon] returns [icon_with], or raises. *)
Lemma create_icon_cases size fs w :
  font_size size = Ok fs ->
  (renders E size fs /\ create_icon E size w = (w, Ok (icon_with (fonts E) size fs)))
  \/ exists e, create_icon E size w = (w, Raise e).
Proof.
  intros Hfs. pose proof (create_icon_world size w) as Hw.
  destruct (create_icon E size w) as [w' [img|e]] eqn:Hrun; cbn [fst] in Hw; subst w'.
  - left. apply create_icon_Ok_inv in Hrun as (_ & fs' & Hfs' & Hr & ->).
    rewrite Hfs in Hfs'. injection Hfs' as <-. now split.
  - right. now exists e.
Qed.

Lemma icon_with_drawn size fs :
  im_drawn (icon_with (fonts E) size fs) = [label_op (fonts E) size fs].
Proof. reflexivity. Qed.

(** Both arms of the [try] end with a font. *)
Lemma font_preferred fs :
  truetype_fault (fonts E) arial fs = None ->
  font (fonts E) fs = FreeTypeFont arial fs.
Proof. intros H. unfold font, truetype. now rewrite H. Qed.

Lemma font_fallback fs e :
  truetype (fonts E) arial fs = Raise e ->
  font (fonts E) fs = load_default None.
Proof. intros H. unfold font. now rewrite H. Qed.

End CreateIcon.

(** The sample hosts carry out what [create_icon] asks for any size that
    fits a C [int]. *)
Lemma host_renders (load : string -> Z -> option exn) boxes size fs :
  0 <= size < 2 ^ 31 -> renders (host (able_fonts load boxes)) size fs.
Proof.
  intros Hsize. split; [|now split].
  unfold Image_new. cbn [fst snd new_fault host].
  rewrite (proj2 (Z.ltb_ge size 0)) by lia.
  rewrite (proj2 (Z.leb_gt (2 ^ 31) size)) by lia. reflexivity.
Qed.

(** C9: for every positive size the font size handed to the font loader,
    [int(size * 0.4)], is the floor of the product [size * 0.4] (the
    product raising exactly when the font size does, which no size below
    [2 ^ 1023] makes it do), and Arial, when it loads, is loaded at that
    size: the canvas the collaborator renders is labelled in Arial at
    [int(size * 0.4)]; the font size is 6, 19 and 51 for the sizes 16, 48
    and 128, and on every size up to 65536 it is the exact
    [2 * size // 5]. *)
Theorem font_size_is_floor (size : Z) :
  0 < size ->
  font_size size = rbind (int_mul_float size float_0_4) floor_of_float
  /\ (size < 2 ^ 1023 -> exists fs, font_size size = Ok fs)
  /\ (forall E fs w,
        font_size size = Ok fs ->
        truetype_fault (fonts E) arial fs = None ->
        renders E size fs ->
        exists xy,
          create_icon E size w =
            (w, Ok (labelled (blank "RGB" (size, size) "#4A90E2")
                      xy text "white" (FreeTypeFont arial fs))))
  /\ (size <= 65536 -> font_size size = Ok (2 * size / 5))
  /\ font_size 16 = Ok 6 /\ font_size 48 = Ok 19 /\ font_size 128 = Ok 51.
Proof.
  intros Hpos. split; [|split; [|split; [|split; [|now vm_compute]]]].
  - unfold font_size, int_mul_float.
    destruct (float_of_int size) as [f|e] eqn:Hf; [|reflexivity].
    cbn [rbind]. apply int_of_float_floor.
    intros s m e. apply mul_0_4_sign.
    intros s' m' e'. now apply (float_of_int_sign size f).
  - intros Hlt. now apply font_size_defined.
  - intros E fs w Hfs Hload Hr. eexists.
    rewrite (create_icon_ok E size fs w Hfs Hr). unfold icon_with.
    now rewrite (font_preferred E fs Hload).
  - intros Hle. apply font_size_exact_small. lia.
Qed.

Lemma font_size_is_floor_witness :
  0 < 48
  /\ font_size 48 = rbind (int_mul_float 48 float_0_4) floor_of_float
  /\ font_size 48 = Ok 19.
Proof.
  split; [lia|].
  destruct (font_size_is_floor 48 ltac:(lia)) as (Hfloor & _ & _ & _ & _ & H48 & _).
  split; [exact Hfloor | exact H48].
Defined.




(** C5: the font size is used on the preferred path only.  When the
    loader raises, the canvas [create_icon] returns is labelled in
    [load_default()], called without a size: for any two icon sizes on the
    fallback path the label is set in the same font and measures the same
    width and height, whatever the two font sizes computed; when the
    loader succeeds the canvas is labelled in Arial at [font_size]. *)
Theorem fallback_font_ignores_size (E : Env) (s1 s2 fs1 fs2 : Z) (e1 e2 : exn)
    (w1 w2 w1' w2' : World) (img1 img2 : Image) :
  font_size s1 = Ok fs1 ->
  font_size s2 = Ok fs2 ->
  truetype (fonts E) arial fs1 = Raise e1 ->
  truetype (fonts E) arial fs2 = Raise e2 ->
  create_icon E s1 w1 = (w1', Ok img1) ->
  create_icon E s2 w2 = (w2', Ok img2) ->
  (exists op1 op2,
     im_drawn img1 = [op1] /\ im_drawn img2 = [op2]
     /\ op_font op1 = load_default None
     /\ op_font op2 = op_font op1
     /\ op_text op2 = op_text op1
     /\ text_width (ink_box (fonts E) op2) = text_width (ink_box (fonts E) op1)
     /\ text_height (ink_box (fonts E) op2) = text_height (ink_box (fonts E) op1))
  /\ (forall size fs w w' img,
        font_size size = Ok fs ->
        truetype_fault (fonts E) arial fs = None ->
        create_icon E size w = (w', Ok img) ->
        exists op, im_drawn img = [op] /\ op_font op = FreeTypeFont arial fs).
Proof.
  intros Hfs1 Hfs2 H1 H2 Hrun1 Hrun2. split.
  - apply create_icon_Ok_inv in Hrun1 as (_ & fs1' & Hfs1' & _ & ->).
    apply create_icon_Ok_inv in Hrun2 as (_ & fs2' & Hfs2' & _ & ->).
    rewrite Hfs1 in Hfs1'. injection Hfs1' as <-.
    rewrite Hfs2 in Hfs2'. injection Hfs2' as <-.
    exists (label_op (fonts E) s1 fs1), (label_op (fonts E) s2 fs2).
    split; [reflexivity|]. split; [reflexivity|].
    unfold ink_box, label_op. cbn [op_font op_text op_xy].
    rewrite !text_width_box_at, !text_height_box_at.
    rewrite (font_fallback E fs1 e1 H1), (font_fallback E fs2 e2 H2).
    now repeat split.
  - intros size fs w w' img Hfs Hload Hrun.
    apply create_icon_Ok_inv in Hrun as (_ & fs' & Hfs' & _ & ->).
    rewrite Hfs in Hfs'. injection Hfs' as <-.
    exists (label_op (fonts E) size fs). split; [reflexivity|].
    unfold label_op. cbn [op_font]. now apply font_preferred.
Qed.

Lemma fallback_font_ignores_size_witness :
  create_icon bare_host 16 (boot ∅ ∅)
    = (boot ∅ ∅, Ok (icon_with (fonts bare_host) 16 6))
  /\ create_icon bare_host 128 (boot ∅ ∅)
     = (boot ∅ ∅, Ok (icon_with (fonts bare_host) 128 51))
  /\ exists op1 op2,
       im_drawn (icon_with (fonts bare_host) 16 6) = [op1]
       /\ im_drawn (icon_with (fonts bare_host) 128 51) = [op2]
       /\ op_font op1 = load_default None
       /\ op_font op2 = op_font op1
       /\ op_text op2 = op_text op1
       /\ text_width (ink_box (fonts bare_host) op2)
          = text_width (ink_box (fonts bare_host) op1)
       /\ text_height (ink_box (fonts bare_host) op2)
          = text_height (ink_box (fonts bare_host) op1).
Proof.
  assert (H16 : create_icon bare_host 16 (boot ∅ ∅)
                = (boot ∅ ∅, Ok (icon_with (fonts bare_host) 16 6)))
    by (apply create_icon_ok; [vm_compute; reflexivity | apply host_renders; lia]).
  assert (H128 : create_icon bare_host 128 (boot ∅ ∅)
                 = (boot ∅ ∅, Ok (icon_with (fonts bare_host) 128 51)))
    by (apply create_icon_ok; [vm_compute; reflexivity | apply host_renders; lia]).
  split; [exact H16|]. split; [exact H128|].
  apply (fallback_font_ignores_size bare_host 16 128 6 51 OSError OSError
           (boot ∅ ∅) (boot ∅ ∅) (boot ∅ ∅) (boot ∅ ∅)
           (icon_with (fonts bare_host) 16 6) (icon_with (fonts bare_host) 128 51));
    [vm_compute; reflexivity | vm_compute; reflexivity
     | reflexivity | reflexivity | exact H16 | exact H128].
Defined.

(** C6: for every positive size and on every host (whichever font it
    provides), every canvas [create_icon] returns has the requested size
    as its width and as its height, mode RGB and the fill #4A90E2; and
    [create_icon] does return a canvas whenever the collaborator carries
    out what it is asked: once [Image.new] has allocated the canvas the
    font size is defined, and the canvas is returned when the label is
    laid out and painted. *)
Theorem icon_is_square (E : Env) (size : Z) (w : World) :
  0 < size ->
  (forall w' img,
     create_icon E size w = (w', Ok img) ->
     w' = w /\ width img = size /\ height img = size
     /\ im_mode img = "RGB" /\ im_color img = "#4A90E2")
  /\ (forall canvas,
        Image_new (new_fault E) "RGB" (size, size) "#4A90E2" = Ok canvas ->
        exists fs,
          font_size size = Ok fs
          /\ (text_fault (fonts E) (font (fonts E) fs) text = None ->
              draw_fault (fonts E) (label_op (fonts E) size fs) = None ->
              exists img, create_icon E size w = (w, Ok img))).
Proof.
  intros Hpos. split.
  - intros w' img Hrun.
    apply create_icon_Ok_inv in Hrun as (-> & fs & _ & _ & ->). now repeat split.
  - intros canvas Hnew.
    destruct (Image_new_Ok _ _ _ _ _ Hnew) as (-> & [_ Hlt] & _). cbn [fst] in Hlt.
    assert (Hrange : 0 < size < 2 ^ 1023).
    { split; [exact Hpos|]. eapply Z.lt_trans; [exact Hlt|].
      apply Z.pow_lt_mono_r; lia. }
    destruct (font_size_defined size Hrange) as [fs Hfs].
    exists fs. split; [exact Hfs|]. intros Htext Hdraw.
    exists (icon_with (fonts E) size fs). apply create_icon_ok; [exact Hfs|].
    now repeat split.
Qed.

Lemma icon_is_square_witness :
  0 < 128
  /\ exists img,
       create_icon mac_host 128 (boot ∅ ∅) = (boot ∅ ∅, Ok img)
       /\ width img = 128 /\ height img = 128
       /\ im_mode img = "RGB" /\ im_color img = "#4A90E2".
Proof.
  split; [lia|].
  destruct (icon_is_square mac_host 128 (boot ∅ ∅) ltac:(lia)) as (Hsq & Hret).
  destruct (Hret (blank "RGB" (128, 128) "#4A90E2") eq_refl) as (fs & _ & Hrun).
  destruct (Hrun eq_refl eq_refl) as [img Himg].
  exists img. split; [exact Himg|].
  now destruct (Hsq _ _ Himg) as (_ & ? & ? & ? & ?).
Defined.

(** Beyond what [Image.new] takes, no canvas is returned: an edge of
    [2 ^ 31] pixels raises [OverflowError], before the font size is
    computed. *)
Example create_icon_oversize (E : Env) (w : World) :
  create_icon E (2 ^ 31) w = (w, Raise OverflowError).
Proof. reflexivity. Qed.

(** C10: nothing checks the draw origin.  For every positive size, when
    the measured box is wider (taller) than the canvas, [x] ([y]) is
    negative; the label is drawn at that origin as it is, no error is
    raised, and the canvas returned is still [size] by [size]. *)
Theorem oversized_label_drawn_unclamped (E : Env) (size fs : Z) (w : World)
    (bbox : Box) :
  0 < size ->
  font_size size = Ok fs ->
  renders E size fs ->
  textbbox (fonts E) (0, 0) text (font (fonts E) fs) = Ok bbox ->
  let x := floordiv (size - text_width bbox) 2 in
  let y := floordiv (size - text_height bbox) 2 in
  exists img,
    create_icon E size w = (w, Ok img)
    /\ im_drawn img =
         [{| op_xy := (x, y); op_text := text; op_fill := "white";
             op_font := font (fonts E) fs |}]
    /\ (size < text_width bbox -> x < 0)
    /\ (size < text_height bbox -> y < 0)
    /\ width img = size /\ height img = size.
Proof.
  intros _ Hfs Hr Hbox x y. exists (icon_with (fonts E) size fs).
  split; [now apply create_icon_ok|].
  unfold textbbox in Hbox. destruct Hr as (_ & Htext & _).
  rewrite Htext in Hbox. injection Hbox as <-.
  split; [reflexivity|].
  unfold x, y, floordiv.
  split; [|split; [|now split]]; intros Hbig;
    apply Z.div_lt_upper_bound; lia.
Qed.

Lemma oversized_label_drawn_unclamped_witness :
  exists bbox,
    textbbox (fonts bare_host) (0, 0) text (font (fonts bare_host) 6) = Ok bbox
    /\ let x := floordiv (16 - text_width bbox) 2 in
       let y := floordiv (16 - text_height bbox) 2 in
       16 < text_width bbox /\ x = -2
       /\ exists img,
            create_icon bare_host 16 (boot ∅ ∅) = (boot ∅ ∅, Ok img)
            /\ im_drawn img =
                 [{| op_xy := (x, y); op_text := text; op_fill := "white";
                     op_font := font (fonts bare_host) 6 |}]
            /\ (16 < text_width bbox -> x < 0)
            /\ (16 < text_height bbox -> y < 0)
            /\ width img = 16 /\ height img = 16.
Proof.
  eexists. split; [reflexivity|].
  split; [vm_compute; reflexivity|]. split; [vm_compute; reflexivity|].
  apply (oversized_label_drawn_unclamped bare_host 16 6);
    [lia | vm_compute; reflexivity | apply host_renders; lia | reflexivity].
Defined.

(** C1 (as amended): for every positive size, the canvas [create_icon]
    returns carries one label, drawn at [x = (size - width) // 2],
    [y = (size - height) // 2], with the width and height of the box
    measured at the origin.  When that box starts at the anchor
    horizontally (vertically), the ink ends up centred up to rounding: the
    right (bottom) margin is the left (top) one or one pixel more, and
    they are equal exactly when [size - width] ([size - height]) is
    even. *)
Theorem label_origin_centres_flush_box (E : Env) (size : Z) (w w' : World)
    (img : Image) :
  0 < size ->
  create_icon E size w = (w', Ok img) ->
  exists op,
    im_drawn img = [op]
    /\ op_text op = text
    /\ let F := fonts E in
       let glyphs := getbbox F (op_font op) text in
       op_xy op = ((size - text_width glyphs) / 2, (size - text_height glyphs) / 2)
       /\ (b_left glyphs = 0 ->
             margin_left F op = (size - text_width glyphs) / 2
             /\ 0 <= margin_right F size op - margin_left F op <= 1
             /\ (margin_right F size op = margin_left F op
                 <-> (size - text_width glyphs) mod 2 = 0))
       /\ (b_top glyphs = 0 ->
             margin_top F op = (size - text_height glyphs) / 2
             /\ 0 <= margin_bottom F size op - margin_top F op <= 1
             /\ (margin_bottom F size op = margin_top F op
                 <-> (size - text_height glyphs) mod 2 = 0)).
Proof.
  intros _ Hrun.
  apply create_icon_Ok_inv in Hrun as (_ & fs & _ & _ & ->).
  exists (label_op (fonts E) size fs).
  split; [reflexivity|]. split; [reflexivity|].
  intros F glyphs. subst F.
  set (op := label_op (fonts E) size fs) in *.
  assert (Hxy : op_xy op
                = ((size - text_width glyphs) / 2, (size - text_height glyphs) / 2)).
  { unfold op, label_op. cbn [op_xy]. unfold floordiv.
    now rewrite text_width_box_at, text_height_box_at. }
  split; [exact Hxy|].
  unfold margin_left, margin_right, margin_top, margin_bottom, ink_box, box_at.
  rewrite Hxy. cbn [b_left b_right b_top b_bottom fst snd].
  replace (op_text op) with text by reflexivity.
  fold glyphs. unfold text_width, text_height.
  split; intros Hflush; rewrite Hflush;
    [ pose proof (Z.div_mod (size - (b_right glyphs - 0)) 2 ltac:(lia));
      pose proof (Z.mod_pos_bound (size - (b_right glyphs - 0)) 2 ltac:(lia))
    | pose proof (Z.div_mod (size - (b_bottom glyphs - 0)) 2 ltac:(lia));
      pose proof (Z.mod_pos_bound (size - (b_bottom glyphs - 0)) 2 ltac:(lia)) ];
    repeat split; lia.
Qed.

Lemma label_origin_centres_flush_box_witness :
  let F := fonts flush_host in
  create_icon flush_host 16 (boot ∅ ∅) = (boot ∅ ∅, Ok (icon_with F 16 6))
  /\ exists op,
       im_drawn (icon_with F 16 6) = [op]
       /\ b_left (getbbox F (op_font op) text) = 0
       /\ b_top (getbbox F (op_font op) text) = 0
       /\ 0 <= margin_right F 16 op - margin_left F op <= 1
       /\ 0 <= margin_bottom F 16 op - margin_top F op <= 1.
Proof.
  intros F.
  assert (Hrun : create_icon flush_host 16 (boot ∅ ∅)
                 = (boot ∅ ∅, Ok (icon_with F 16 6)))
    by (apply create_icon_ok; [vm_compute; reflexivity | apply host_renders; lia]).
  split; [exact Hrun|].
  destruct (label_origin_centres_flush_box flush_host 16 _ _ _ ltac:(lia) Hrun)
    as (op & Hdrawn & _ & _ & Hh & Hv).
  exists op. split; [exact Hdrawn|].
  injection Hdrawn as <-.
  split; [reflexivity|]. split; [reflexivity|].
  split; [apply (Hh eq_refl) | apply (Hv eq_refl)].
Defined.

(** C1 as stated fails.  With a box that starts at the anchor and an odd
    [size - width] (built-in font, 11 pixels wide, on the 16-pixel
    canvas) the margins are 2 and 3.  With a box that starts 3 pixels
    below the anchor (built-in font on the 48-pixel canvas) the top
    margin is 23 and the bottom one 17. *)
Lemma centring_counterexample :
  (create_icon flush_host 16 (boot ∅ ∅)
     = (boot ∅ ∅, Ok (icon_with (fonts flush_host) 16 6))
   /\ im_drawn (icon_with (fonts flush_host) 16 6) = [label_op (fonts flush_host) 16 6]
   /\ margin_left (fonts flush_host) (label_op (fonts flush_host) 16 6) = 2
   /\ margin_right (fonts flush_host) 16 (label_op (fonts flush_host) 16 6) = 3
   /\ centred (fonts flush_host) 16 (label_op (fonts flush_host) 16 6) = false)
  /\ (create_icon bare_host 48 (boot ∅ ∅)
        = (boot ∅ ∅, Ok (icon_with (fonts bare_host) 48 19))
      /\ im_drawn (icon_with (fonts bare_host) 48 19) = [label_op (fonts bare_host) 48 19]
      /\ b_top (getbbox (fonts bare_host) (font (fonts bare_host) 19) text) = 3
      /\ margin_top (fonts bare_host) (label_op (fonts bare_host) 48 19) = 23
      /\ margin_bottom (fonts bare_host) 48 (label_op (fonts bare_host) 48 19) = 17
      /\ centred (fonts bare_host) 48 (label_op (fonts bare_host) 48 19) = false).
Proof.
  split.
  - split; [apply create_icon_ok; [now vm_compute | apply host_renders; lia]|].
    repeat split; now vm_compute.
  - split; [apply create_icon_ok; [now vm_compute | apply host_renders; lia]|].
    repeat split; now vm_compute.
Qed.

(* ===================================================================== *)
(** ** Properties of statements and filesystem calls                                 *)
(* ===================================================================== *)

Section Statements.

Context {A B : Type}.

Lemma bind_Ok_inv (c : M A) (k : A -> M B) w w' b :
  bind c k w = (w', Ok b) ->
  exists a w1, c w = (w1, Ok a) /\ k a w1 = (w', Ok b).
Proof.
  unfold bind. destruct (c w) as [w1 [a|e]]; [eauto | discriminate].
Qed.

(** A handler that leaves the world alone does not move [try]. *)
Lemma try_except_world (c : M A) catches (h : exn -> M A) w :
  (forall e w1, fst (h e w1) = w1) ->
  fst (try_except c catches h w) = fst (c w).
Proof.
  intros Hh. unfold try_except.
  destruct (c w) as [w1 [a|e]]; [reflexivity|].
  destruct (catches e); [apply Hh | reflexivity].
Qed.

End Statements.

(** Split a successful [bind] into its two steps. *)
Ltac step H w Hstep :=
  apply bind_Ok_inv in H as ([] & w & Hstep & H).

Section Filesystem.

Variable fault : string -> option exn.

Lemma grows_refl w : grows w w.
Proof.
  repeat split. exists []. rewrite app_nil_r. repeat split.
  cbn. set_solver.
Qed.

Lemma made_app js1 js2 : made (js1 ++ js2) = made js1 ∪ made js2.
Proof.
  induction js1 as [|[p|p f] js1 IH]; cbn; [set_solver| |assumption].
  rewrite IH. set_solver.
Qed.

Lemma grows_trans w1 w2 w3 : grows w1 w2 -> grows w2 w3 -> grows w1 w3.
Proof.
  intros (Ho1 & Hf1 & js1 & Hj1 & Hm1 & Hd1) (Ho2 & Hf2 & js2 & Hj2 & Hm2 & Hd2).
  split; [congruence|]. split; [congruence|].
  exists (js1 ++ js2). split; [rewrite Hj2, Hj1; now rewrite app_assoc|].
  split; [rewrite forallb_app, Hm1, Hm2; reflexivity|].
  rewrite made_app, Hd2, Hd1. set_solver.
Qed.

Lemma mkdir_grows path w : grows w (fst (OS.mkdir fault path w)).
Proof.
  unfold OS.mkdir.
  destruct (OS.exists_ w path); [apply grows_refl|].
  destruct (negb (OS.parent_ok w path)); [apply grows_refl|].
  destruct (fault path); [apply grows_refl|].
  cbn. repeat split. exists [Mkdir path]. repeat split. cbn. set_solver.
Qed.

(** A successful [mkdir] leaves the directory behind, in a parent that
    was there. *)
Lemma mkdir_Ok path w w' :
  OS.mkdir fault path w = (w', Ok tt) ->
  w' = set_fs w ({[ path ]} ∪ dirs w) (files w) (journal w ++ [Mkdir path])
  /\ OS.exists_ w path = false /\ OS.parent_ok w path = true.
Proof.
  unfold OS.mkdir.
  destruct (OS.exists_ w path); [discriminate|].
  destruct (OS.parent_ok w path); [|discriminate].
  cbn. destruct (fault path); [discriminate|].
  now intros [= <-].
Qed.

(** A failed [mkdir] changes nothing. *)
Lemma mkdir_Raise path w w' e :
  OS.mkdir fault path w = (w', Raise e) -> w' = w.
Proof.
  unfold OS.mkdir.
  destruct (OS.exists_ w path); [now intros [= <-]|].
  destruct (negb (OS.parent_ok w path)); [now intros [= <-]|].
  destruct (fault path); [now intros [= <-]|discriminate].
Qed.

Lemma makedirs_rec_S depth name exist_ok :
  OS.makedirs_rec (S depth) fault name exist_ok =
  let (head, tail) :=
    let (head, tail) := OS.split name in
    if String.eqb tail "" then OS.split head else (head, tail) in
  let parents : M bool :=
    fun w =>
      if negb (String.eqb head "") && negb (String.eqb tail "")
         && negb (OS.exists_ w head)
      then
        (try_except (OS.makedirs_rec depth fault head exist_ok)
           is_FileExistsError (fun _ => ret tt) ;;
         ret (String.eqb tail ".")) w
      else (w, Ok false) in
  let* done := parents in
  if done then ret tt
  else
    try_except (OS.mkdir fault name) is_OSError
      (fun e w =>
         if negb exist_ok || negb (OS.isdir w name) then (w, Raise e)
         else (w, Ok tt)).
Proof. reflexivity. Qed.

(** [makedirs] creates directories and does nothing else, whether it
    succeeds or raises. *)
Lemma makedirs_rec_grows depth : forall name exist_ok w,
  grows w (fst (OS.makedirs_rec depth fault name exist_ok w)).
Proof.
  induction depth as [|depth IH]; intros name exist_ok w; [apply grows_refl|].
  rewrite makedirs_rec_S.
  destruct (let (head, tail) := OS.split name in
            if String.eqb tail "" then OS.split head else (head, tail))
    as [head tail].
  cbv zeta. unfold bind at 1.
  match goal with |- context [if ?c then _ else (w, Ok false)] => destruct c end.
  - unfold bind at 1.
    pose proof (IH head exist_ok w) as Hin.
    rewrite <- (try_except_world (OS.makedirs_rec depth fault head exist_ok)
                  is_FileExistsError (fun _ => ret tt) w) in Hin
      by reflexivity.
    destruct (try_except _ _ _ w) as [w1 [u|e]]; cbn [fst] in Hin; [|exact Hin].
    unfold ret at 1. destruct (String.eqb tail "."); [exact Hin|].
    eapply grows_trans; [exact Hin|].
    rewrite try_except_world; [apply mkdir_grows|].
    intros e w2. now destruct (negb exist_ok || negb (OS.isdir w2 name)).
  - rewrite try_except_world; [apply mkdir_grows|].
    intros e w2. now destruct (negb exist_ok || negb (OS.isdir w2 name)).
Qed.

Lemma makedirs_grows name exist_ok w :
  grows w (fst (OS.makedirs fault name exist_ok w)).
Proof. apply makedirs_rec_grows. Qed.

End Filesystem.

Section OutputDir.

Variable fault : string -> option exn.

Lemma exists_set_fs_dist w path :
  OS.exists_ (set_fs w ({[ "dist" ]} ∪ dirs w) (files w) (journal w ++ [Mkdir "dist"])) path
  = String.eqb path "dist" || OS.exists_ w path.
Proof.
  unfold OS.exists_, OS.isdir. cbn [dirs files set_fs].
  destruct (String.eqb_spec path "dist") as [->|Hne].
  - rewrite bool_decide_eq_true_2 by set_solver. reflexivity.
  - cbn [orb]. f_equal. apply bool_decide_ext. set_solver.
Qed.

(** The inner call, [makedirs("dist")], made when "dist" is missing. *)
Lemma makedirs_dist depth w :
  OS.exists_ w "dist" = false ->
  OS.makedirs_rec (S depth) fault "dist" true w =
  match fault "dist" with
  | Some e => (w, Raise e)
  | None =>
      (set_fs w ({[ "dist" ]} ∪ dirs w) (files w) (journal w ++ [Mkdir "dist"]), Ok tt)
  end.
Proof.
  intros Hex. rewrite makedirs_rec_S.
  change (OS.split "dist") with ("", "dist").
  cbv beta iota zeta.
  change (String.eqb "dist" "") with false. cbv beta iota.
  change (String.eqb "" "") with true. cbn [negb andb].
  unfold bind, try_except, OS.mkdir. rewrite Hex.
  change (OS.parent_ok w "dist") with true. cbn [negb].
  destruct (fault "dist") as [e|]; [|reflexivity].
  destruct (is_OSError e); [|reflexivity].
  unfold OS.exists_ in Hex. apply orb_false_iff in Hex as [-> _]. reflexivity.
Qed.

(** The last step of [makedirs]: the directory is made, or was there. *)
Lemma mkdir_exist_ok name w w' :
  try_except (OS.mkdir fault name) is_OSError
    (fun e w1 =>
       if negb true || negb (OS.isdir w1 name) then (w1, Raise e)
       else (w1, Ok tt)) w = (w', Ok tt) ->
  (w' = set_fs w ({[ name ]} ∪ dirs w) (files w) (journal w ++ [Mkdir name])
   /\ OS.exists_ w name = false /\ OS.parent_ok w name = true)
  \/ (w' = w /\ OS.isdir w name = true).
Proof.
  unfold try_except.
  destruct (OS.mkdir fault name w) as [w1 [[]|e]] eqn:Hm.
  - intros [= <-]. left. now apply (mkdir_Ok fault).
  - apply mkdir_Raise in Hm as ->.
    destruct (is_OSError e); [|discriminate].
    cbn [negb orb]. destruct (OS.isdir w name); [|discriminate].
    intros [= <-]. now right.
Qed.

Lemma set_fs_nothing w : w = set_fs w (made [] ∪ dirs w) (files w) (journal w ++ []).
Proof.
  destruct w as [o d f j]. unfold set_fs. cbn.
  rewrite app_nil_r. f_equal. set_solver.
Qed.

Lemma makedirs_output_dir_Ok w w' :
  OS.makedirs fault output_dir true w = (w', Ok tt) ->
  exists mk,
    w' = set_fs w (made mk ∪ dirs w) (files w) (journal w ++ mk)
    /\ ensured w mk.
Proof.
  unfold OS.makedirs. change (String.length output_dir) with 10%nat.
  rewrite makedirs_rec_S.
  change (OS.split output_dir) with ("dist", "icons").
  cbv beta iota zeta.
  change (String.eqb "icons" "") with false. cbv beta iota.
  change (String.eqb "icons" "") with false.
  change (String.eqb "dist" "") with false.
  change (String.eqb "icons" ".") with false.
  cbn [negb andb].
  unfold bind at 1.
  destruct (OS.exists_ w "dist") eqn:Hdist; cbn [negb].
  - (* "dist" is there *)
    intros [[-> [Hnew Hpar]]|[-> Hdir]]%mkdir_exist_ok.
    + exists [Mkdir output_dir]. split; [unfold set_fs; f_equal; cbn; set_solver|].
      right; left. split; [reflexivity|]. split; [|assumption].
      exact Hpar.
    + exists []. split; [apply set_fs_nothing|]. now left.
  - (* "dist" is missing: the inner call comes first *)
    unfold bind at 1, try_except at 1.
    rewrite (makedirs_dist 9 w Hdist).
    destruct (fault "dist") as [e|].
    + destruct (is_FileExistsError e); [|discriminate].
      cbn [ret].
      intros [[-> [Hnew Hpar]]|[-> Hdir]]%mkdir_exist_ok.
      * exfalso. change (OS.parent_ok w output_dir) with (OS.isdir w "dist") in Hpar.
        unfold OS.exists_ in Hdist. rewrite Hpar in Hdist. discriminate.
      * exists []. split; [apply set_fs_nothing|]. now left.
    + cbn [ret].
      intros [[-> [Hnew Hpar]]|[-> Hdir]]%mkdir_exist_ok.
      * exists [Mkdir "dist"; Mkdir output_dir].
        split.
        { unfold set_fs. cbn. rewrite <- app_assoc. f_equal. set_solver. }
        right; right; left. split; [reflexivity|]. split; [assumption|].
        rewrite exists_set_fs_dist in Hnew. now apply orb_false_iff in Hnew as [_ ?].
      * exists [Mkdir "dist"].
        split; [unfold set_fs; f_equal; cbn; set_solver|].
        right; right; right. split; [reflexivity|]. split; [assumption|].
        unfold OS.isdir in *. cbn [dirs set_fs] in Hdir.
        apply bool_decide_eq_true in Hdir. apply bool_decide_eq_true.
        apply elem_of_union in Hdir as [Hd%elem_of_singleton|Hd]; [discriminate|assumption].
Qed.

(** When the directory and its parent are there already, nothing is
    raised and nothing changes. *)
Lemma makedirs_output_dir_present w :
  OS.isdir w output_dir = true -> OS.exists_ w "dist" = true ->
  OS.makedirs fault output_dir true w = (w, Ok tt).
Proof.
  intros Hdir Hdist.
  unfold OS.makedirs. change (String.length output_dir) with 10%nat.
  rewrite makedirs_rec_S.
  change (OS.split output_dir) with ("dist", "icons").
  cbv beta iota zeta.
  change (String.eqb "icons" "") with false. cbv beta iota.
  change (String.eqb "icons" "") with false.
  change (String.eqb "dist" "") with false.
  cbn [negb andb].
  unfold bind at 1. rewrite Hdist. cbn [negb].
  unfold try_except, OS.mkdir, OS.exists_. rewrite Hdir.
  cbn [orb is_OSError]. now rewrite Hdir.
Qed.

(** When neither the directory nor its parent exists and the host
    refuses nothing, both are created, the parent first. *)
Lemma makedirs_output_dir_fresh w :
  OS.exists_ w "dist" = false -> OS.exists_ w output_dir = false ->
  fault "dist" = None -> fault output_dir = None ->
  OS.makedirs fault output_dir true w =
  (set_fs w ({[ output_dir ]} ∪ ({[ "dist" ]} ∪ dirs w)) (files w)
     (journal w ++ [Mkdir "dist"; Mkdir output_dir]), Ok tt).
Proof.
  intros Hdist Hout Hf1 Hf2.
  unfold OS.makedirs. change (String.length output_dir) with 10%nat.
  rewrite makedirs_rec_S.
  change (OS.split output_dir) with ("dist", "icons").
  cbv beta iota zeta.
  change (String.eqb "icons" "") with false. cbv beta iota.
  change (String.eqb "icons" "") with false.
  change (String.eqb "dist" "") with false.
  change (String.eqb "icons" ".") with false.
  cbn [negb andb].
  unfold bind at 1. rewrite Hdist. cbn [negb].
  unfold bind at 1, try_except at 1.
  rewrite (makedirs_dist 9 w Hdist), Hf1. cbn [ret].
  unfold try_except, OS.mkdir.
  rewrite exists_set_fs_dist, Hout.
  change (String.eqb output_dir "dist") with false. cbn [orb].
  unfold OS.parent_ok. change (OS.dirname output_dir) with "dist".
  change (String.eqb "dist" "") with false. cbn [orb].
  unfold OS.isdir at 1. cbn [dirs set_fs].
  rewrite bool_decide_eq_true_2 by set_solver. cbn [negb].
  rewrite Hf2. unfold set_fs. cbn. now rewrite <- app_assoc.
Qed.

End OutputDir.

(* ===================================================================== *)
(** ** Properties of the driver                                           *)
(* ===================================================================== *)

Lemma filename_16 : filename 16 = "dist/icons/icon16.png".
Proof. now vm_compute. Qed.
Lemma filename_48 : filename 48 = "dist/icons/icon48.png".
Proof. now vm_compute. Qed.
Lemma filename_128 : filename 128 = "dist/icons/icon128.png".
Proof. now vm_compute. Qed.

(** Where the ensured directory ends up. *)
Lemma ensured_isdir d f mk :
  ensured (boot d f) mk -> output_dir ∈ made mk ∪ d.
Proof.
  unfold ensured, OS.isdir. cbn [dirs boot].
  intros [[-> H]|[[-> _]|[[-> _]|[-> [_ H]]]]]; cbn [made];
    try apply bool_decide_eq_true in H; set_solver.
Qed.

(** The last step of [makedirs], whatever it yields: the world is as it
    was, or the directory was made. *)
Lemma mkdir_exist_ok_any fault name w w' r :
  try_except (OS.mkdir fault name) is_OSError
    (fun e w1 =>
       if negb true || negb (OS.isdir w1 name) then (w1, Raise e)
       else (w1, Ok tt)) w = (w', r) ->
  w' = w
  \/ (w' = set_fs w ({[ name ]} ∪ dirs w) (files w) (journal w ++ [Mkdir name])
      /\ r = Ok tt).
Proof.
  unfold try_except.
  destruct (OS.mkdir fault name w) as [w1 [[]|e]] eqn:Hm.
  - intros [= <- <-]. right. split; [|reflexivity].
    now apply (mkdir_Ok fault name w w1).
  - apply mkdir_Raise in Hm as ->.
    destruct (is_OSError e); [|now intros [= <- _]; left].
    cbn [negb orb]. destruct (OS.isdir w name); intros [= <- _]; now left.
Qed.

(** Whatever [makedirs(output_dir, exist_ok=True)] yields, it has at most
    created "dist" and [output_dir], and touched nothing else. *)
Lemma makedirs_output_dir_any fault w w' r :
  OS.makedirs fault output_dir true w = (w', r) ->
  exists mk,
    w' = set_fs w (made mk ∪ dirs w) (files w) (journal w ++ mk)
    /\ created_dirs mk.
Proof.
  unfold OS.makedirs. change (String.length output_dir) with 10%nat.
  rewrite makedirs_rec_S.
  change (OS.split output_dir) with ("dist", "icons").
  cbv beta iota zeta.
  change (String.eqb "icons" "") with false. cbv beta iota.
  change (String.eqb "icons" "") with false.
  change (String.eqb "dist" "") with false.
  change (String.eqb "icons" ".") with false.
  cbn [negb andb].
  unfold bind at 1.
  pose proof (set_fs_nothing fault w) as Hnone.
  destruct (OS.exists_ w "dist") eqn:Hdist; cbn [negb].
  - intros [->|[-> _]]%mkdir_exist_ok_any.
    + exists []. split; [exact Hnone | now left].
    + exists [Mkdir output_dir].
      split; [unfold set_fs; f_equal; cbn; set_solver|].
      right; right; now left.
  - unfold bind at 1, try_except at 1.
    rewrite (makedirs_dist fault 9 w Hdist).
    destruct (fault "dist") as [e|].
    + destruct (is_FileExistsError e).
      * cbn [ret]. intros [->|[-> _]]%mkdir_exist_ok_any.
        -- exists []. split; [exact Hnone | now left].
        -- exists [Mkdir output_dir].
           split; [unfold set_fs; f_equal; cbn; set_solver|].
           right; right; now left.
      * intros [= <- _]. exists []. split; [exact Hnone | now left].
    + cbn [ret]. intros [->|[-> _]]%mkdir_exist_ok_any.
      * exists [Mkdir "dist"].
        split; [unfold set_fs; f_equal; cbn; set_solver|].
        right; now left.
      * exists [Mkdir "dist"; Mkdir output_dir].
        split; [unfold set_fs; cbn; rewrite <- app_assoc; f_equal; set_solver|].
        right; right; now right.
Qed.

Section Driver.

Variable E : Env.

(** [img.save]: either nothing happens and an exception leaves, or the
    file is written, the path being no directory and the write
    accepted. *)
Lemma save_cases img size w :
  In size sizes ->
  (exists e, OS.save (save_fault E) img (filename size) w = (w, Raise e))
  \/ (OS.save (save_fault E) img (filename size) w =
        (set_fs w (dirs w) (<[ filename size := ImageFile "PNG" img ]> (files w))
           (journal w ++ [Write (filename size) (ImageFile "PNG" img)]), Ok tt)
      /\ OS.isdir w (filename size) = false
      /\ save_fault E (filename size) = None).
Proof.
  intros Hin. unfold OS.save.
  assert (Hfmt : format_of_extension (OS.lower (OS.extension (filename size))) = Some "PNG").
  { each_size Hin; vm_compute; reflexivity. }
  rewrite Hfmt.
  destruct (OS.isdir w (filename size)); [left; eauto|].
  destruct (negb (OS.parent_ok w (filename size))); [left; eauto|].
  destruct (save_fault E (filename size)); [left; eauto|now right].
Qed.

(** [print]: the text is refused and nothing is printed, or the line is
    printed. *)
Lemma print_cases s w :
  (exists e, print_fault E s = Some e /\ print (print_fault E) s w = (w, Raise e))
  \/ (print_fault E s = None /\ print (print_fault E) s w = (printed w s, Ok tt)).
Proof.
  unfold print. destruct (print_fault E s) as [e|]; [left; eauto | now right].
Qed.

Lemma print_accepted s w :
  print_fault E s = None -> print (print_fault E) s w = (printed w s, Ok tt).
Proof. intros H. unfold print. now rewrite H. Qed.

(** One round of the loop: [create_icon] raises; or [img.save] does; or
    the file is written and the confirming [print] raises; or the round
    goes through. *)
Lemma loop_body_cases size fs w :
  In size sizes -> font_size size = Ok fs ->
  (exists e,
     loop_body E size w = (w, Raise e)
     /\ create_icon E size w = (w, Raise e))
  \/ (exists e,
        loop_body E size w = (w, Raise e)
        /\ renders E size fs
        /\ OS.save (save_fault E) (icon_with (fonts E) size fs) (filename size) w
           = (w, Raise e))
  \/ (exists e,
        loop_body E size w = (written E (size, fs) w, Raise e)
        /\ renders E size fs
        /\ OS.isdir w (filename size) = false
        /\ save_fault E (filename size) = None
        /\ print (print_fault E) (confirmation size) (written E (size, fs) w)
           = (written E (size, fs) w, Raise e))
  \/ (loop_body E size w = (after_round E size fs w, Ok tt)
      /\ renders E size fs
      /\ OS.isdir w (filename size) = false
      /\ save_fault E (filename size) = None
      /\ print_fault E (confirmation size) = None).
Proof.
  intros Hin Hfs.
  assert (Hconf : "✓ " +:+ filename size +:+ " 생성 완료" = confirmation size)
    by reflexivity.
  destruct (create_icon_cases E size fs w Hfs) as [[Hr Hicon]|[e Hicon]].
  2:{ left. exists e. split; [|exact Hicon].
      unfold loop_body, bind. now rewrite Hicon. }
  right.
  destruct (save_cases (icon_with (fonts E) size fs) size w Hin)
    as [[e Hsave]|(Hsave & Hdir & Hfault)].
  { left. exists e. split; [|now split].
    unfold loop_body, bind. now rewrite Hicon, Hsave. }
  right.
  change (set_fs w (dirs w)
            (<[ filename size := ImageFile "PNG" (icon_with (fonts E) size fs) ]> (files w))
            (journal w ++ [Write (filename size) (ImageFile "PNG" (icon_with (fonts E) size fs))]))
    with (written E (size, fs) w) in Hsave.
  destruct (print_cases (confirmation size) (written E (size, fs) w))
    as [(e & _ & Hprint)|(Hacc & Hprint)].
  - left. exists e.
    split; [|split; [exact Hr|split; [exact Hdir|split; [exact Hfault|exact Hprint]]]].
    unfold loop_body, bind. rewrite Hicon, Hsave, Hconf. now rewrite Hprint.
  - right.
    split; [|split; [exact Hr|split; [exact Hdir|split; [exact Hfault|exact Hacc]]]].
    unfold loop_body, bind. rewrite Hicon, Hsave, Hconf. now rewrite Hprint.
Qed.

(** When nothing stands in the way, a round goes through. *)
Lemma loop_body_runs size fs w :
  In size sizes -> font_size size = Ok fs ->
  renders E size fs ->
  OS.isdir w output_dir = true ->
  OS.isdir w (filename size) = false ->
  save_fault E (filename size) = None ->
  print_fault E (confirmation size) = None ->
  loop_body E size w = (after_round E size fs w, Ok tt).
Proof.
  intros Hin Hfs Hr Hdir Hfree Hfault Hacc. unfold loop_body, bind.
  rewrite (create_icon_ok E size fs w Hfs Hr).
  assert (Hfmt : format_of_extension (OS.lower (OS.extension (filename size))) = Some "PNG"
                 /\ OS.dirname (filename size) = output_dir).
  { each_size Hin; now vm_compute. }
  destruct Hfmt as [Hfmt Hparent].
  unfold OS.save, OS.parent_ok.
  rewrite Hfmt, Hfree, Hparent, Hdir, Hfault, orb_true_r. cbn [negb].
  change ("✓ " +:+ filename size +:+ " 생성 완료") with (confirmation size).
  unfold print. now rewrite Hacc.
Qed.

(** A round whose write the volume refuses: nothing is written or
    printed, and the exception of the write leaves the round. *)
Lemma loop_body_refused size fs w e :
  In size sizes -> font_size size = Ok fs ->
  renders E size fs ->
  OS.isdir w output_dir = true ->
  OS.isdir w (filename size) = false ->
  save_fault E (filename size) = Some e ->
  loop_body E size w = (w, Raise e).
Proof.
  intros Hin Hfs Hr Hdir Hfree Hfault. unfold loop_body, bind.
  rewrite (create_icon_ok E size fs w Hfs Hr).
  assert (Hfmt : format_of_extension (OS.lower (OS.extension (filename size))) = Some "PNG"
                 /\ OS.dirname (filename size) = output_dir).
  { each_size Hin; now vm_compute. }
  destruct Hfmt as [Hfmt Hparent].
  unfold OS.save, OS.parent_ok.
  rewrite Hfmt, Hfree, Hparent, Hdir, Hfault, orb_true_r. reflexivity.
Qed.

(** The import guard. *)
Lemma import_guard_cases w :
  match import_PIL E with
  | None => import_guard E w = (w, Ok tt)
  | Some e =>
      if is_ImportError e
      then
        match print_fault E "Pillow 라이브러리가 필요합니다." with
        | Some e1 => import_guard E w = (w, Raise e1)
        | None =>
            match print_fault E "설치: pip install Pillow" with
            | Some e2 =>
                import_guard E w
                = (printed w "Pillow 라이브러리가 필요합니다.", Raise e2)
            | None =>
                import_guard E w
                = (printed (printed w "Pillow 라이브러리가 필요합니다.")
                     "설치: pip install Pillow", Raise (SystemExit 1))
            end
        end
      else import_guard E w = (w, Raise e)
  end.
Proof.
  unfold import_guard, try_except, lift, bind, print, exit, raise.
  destruct (import_PIL E) as [e|]; [|reflexivity].
  destruct (is_ImportError e); [|reflexivity].
  destruct (print_fault E "Pillow 라이브러리가 필요합니다."); [reflexivity|].
  destruct (print_fault E "설치: pip install Pillow"); reflexivity.
Qed.

(** Once the import has raised, the guard raises, having at most
    printed. *)
Lemma import_guard_raise w e :
  import_PIL E = Some e ->
  exists out e',
    import_guard E w
    = ({| stdout := out; dirs := dirs w; files := files w; journal := journal w |},
       Raise e').
Proof.
  intros Himp. pose proof (import_guard_cases w) as H. rewrite Himp in H.
  destruct w as [o dd ff jj].
  destruct (is_ImportError e); [|rewrite H; eauto].
  destruct (print_fault E "Pillow 라이브러리가 필요합니다."); [rewrite H; eauto|].
  destruct (print_fault E "설치: pip install Pillow"); rewrite H; eauto.
Qed.

Lemma font_size_16 : font_size 16 = Ok 6.
Proof. now vm_compute. Qed.
Lemma font_size_48 : font_size 48 = Ok 19.
Proof. now vm_compute. Qed.
Lemma font_size_128 : font_size 128 = Ok 51.
Proof. now vm_compute. Qed.

Lemma ensured_created w mk : ensured w mk -> created_dirs mk.
Proof.
  unfold ensured, created_dirs. intros [[-> _]|[[-> _]|[[-> _]|[-> _]]]]; tauto.
Qed.

(** Once Pillow is imported, a run either reaches its end, every step
    having gone through, or stops at the step that raised, in the world
    reached by then and with the exception of that step. *)
Lemma script_outcome d f :
  import_PIL E = None ->
  exists mk,
    created_dirs mk
    /\ fst (OS.makedirs (mkdir_fault E) output_dir true (boot d f)) = ready d f mk
    /\ ((script E (boot d f)
           = (after_summary (after_rounds E plan (ready d f mk)), Ok tt)
         /\ OS.makedirs (mkdir_fault E) output_dir true (boot d f)
            = (ready d f mk, Ok tt)
         /\ ensured (boot d f) mk
         /\ (forall round, In round plan ->
               renders E (fst round) (snd round)
               /\ OS.isdir (ready d f mk) (filename (fst round)) = false
               /\ save_fault E (filename (fst round)) = None)
         /\ accepts E script_prints)
        \/ exists s e,
             script E (boot d f) = (world_at E d f mk s, Raise e)
             /\ raises_at E d f mk s e).
Proof.
  intros Himp.
  destruct (script E (boot d f)) as [w r] eqn:Hrun.
  unfold script, bind at 1 in Hrun.
  pose proof (import_guard_cases (boot d f)) as Hguard.
  rewrite Himp in Hguard. rewrite Hguard in Hrun. unfold bind at 1 in Hrun.
  destruct (OS.makedirs (mkdir_fault E) output_dir true (boot d f))
    as [w1 r1] eqn:Hmk.
  assert (Hmade : exists mk,
            w1 = ready d f mk /\ created_dirs mk
            /\ (r1 = Ok tt -> ensured (boot d f) mk)).
  { destruct r1 as [[]|e].
    - destruct (makedirs_output_dir_Ok _ _ _ Hmk) as (mk & Hw1 & Hens).
      exists mk. split; [exact Hw1|]. split; [now apply (ensured_created (boot d f))|].
      now intros _.
    - destruct (makedirs_output_dir_any _ _ _ _ Hmk) as (mk & Hw1 & Hcreated).
      exists mk. split; [exact Hw1|]. split; [exact Hcreated|]. discriminate. }
  destruct Hmade as (mk & -> & Hcreated & Hens).
  exists mk. split; [exact Hcreated|]. split; [reflexivity|].
  destruct r1 as [[]|e].
  2:{ injection Hrun as <- <-. right. exists AtMakedirs, e. now split. }
  specialize (Hens eq_refl).
  unfold sizes in Hrun. cbn [for_each] in Hrun.
  unfold bind at 1, bind at 1 in Hrun.
  (* round 0 *)
  destruct (loop_body_cases 16 6 (ready d f mk))
    as [(e & He & Hc)|[(e & He & Hr & Hc)|[(e & He & Hr & Hd & Hf & Hc)
        |(He & Hr16 & Hd16 & Hf16 & Hp16)]]];
    [in_sizes | exact font_size_16 | | | |]; rewrite He in Hrun; clear He.
  { injection Hrun as <- <-. right. exists (InRound 0 Drawing), e.
    split; [reflexivity|]. split; [lia|exact Hc]. }
  { injection Hrun as <- <-. right. exists (InRound 0 Saving), e.
    split; [reflexivity|]. split; [lia|exact Hc]. }
  { injection Hrun as <- <-. right. exists (InRound 0 Confirming), e.
    split; [reflexivity|]. split; [lia|exact Hc]. }
  unfold bind at 1 in Hrun.
  (* round 1 *)
  destruct (loop_body_cases 48 19 (after_round E 16 6 (ready d f mk)))
    as [(e & He & Hc)|[(e & He & Hr & Hc)|[(e & He & Hr & Hd & Hf & Hc)
        |(He & Hr48 & Hd48 & Hf48 & Hp48)]]];
    [in_sizes | exact font_size_48 | | | |]; rewrite He in Hrun; clear He.
  { injection Hrun as <- <-. right. exists (InRound 1 Drawing), e.
    split; [reflexivity|]. split; [lia|exact Hc]. }
  { injection Hrun as <- <-. right. exists (InRound 1 Saving), e.
    split; [reflexivity|]. split; [lia|exact Hc]. }
  { injection Hrun as <- <-. right. exists (InRound 1 Confirming), e.
    split; [reflexivity|]. split; [lia|exact Hc]. }
  unfold bind at 1 in Hrun.
  (* round 2 *)
  destruct (loop_body_cases 128 51
              (after_round E 48 19 (after_round E 16 6 (ready d f mk))))
    as [(e & He & Hc)|[(e & He & Hr & Hc)|[(e & He & Hr & Hd & Hf & Hc)
        |(He & Hr128 & Hd128 & Hf128 & Hp128)]]];
    [in_sizes | exact font_size_128 | | | |]; rewrite He in Hrun; clear He.
  { injection Hrun as <- <-. right. exists (InRound 2 Drawing), e.
    split; [reflexivity|]. split; [lia|exact Hc]. }
  { injection Hrun as <- <-. right. exists (InRound 2 Saving), e.
    split; [reflexivity|]. split; [lia|exact Hc]. }
  { injection Hrun as <- <-. right. exists (InRound 2 Confirming), e.
    split; [reflexivity|]. split; [lia|exact Hc]. }
  (* the closing lines *)
  unfold ret at 1 in Hrun. unfold bind at 1 in Hrun.
  change (nl +:+ "모든 아이콘이 생성되었습니다!") with (nl +:+ completion_line) in Hrun.
  change ("위치: " +:+ output_dir +:+ "/") with location_line in Hrun.
  change (after_round E 128 51 (after_round E 48 19 (after_round E 16 6 (ready d f mk))))
    with (after_rounds E plan (ready d f mk)) in Hrun.
  destruct (print_cases (nl +:+ completion_line) (after_rounds E plan (ready d f mk)))
    as [(e & _ & Hc)|(Hpc & Hc)]; rewrite Hc in Hrun.
  { injection Hrun as <- <-. right. exists AtCompletion, e. now split. }
  destruct (print_cases location_line
              (printed (after_rounds E plan (ready d f mk)) (nl +:+ completion_line)))
    as [(e & _ & Hl)|(Hpl & Hl)]; rewrite Hl in Hrun.
  { injection Hrun as <- <-. right. exists AtLocation, e. now split. }
  injection Hrun as <- <-.
  left. split; [reflexivity|]. split; [reflexivity|]. split; [exact Hens|].
  split.
  - intros round Hin. unfold plan in Hin. cbn [In] in Hin.
    destruct Hin as [<-|[<-|[<-|[]]]]; cbn [fst snd].
    + split; [exact Hr16|split; [exact Hd16|exact Hf16]].
    + split; [exact Hr48|split; [exact Hd48|exact Hf48]].
    + split; [exact Hr128|split; [exact Hd128|exact Hf128]].
  - intros t Hin. unfold script_prints, closing_prints, sizes in Hin.
    cbn [map app In] in Hin.
    destruct Hin as [<-|[<-|[<-|[<-|[<-|[]]]]]]; assumption.
Qed.

(** A run that reaches its end: the import worked, the directory was
    ensured, the collaborator rendered the three icons, and the three
    rounds and the summary followed. *)
Lemma script_Ok d f w :
  script E (boot d f) = (w, Ok tt) ->
  import_PIL E = None
  /\ exists mk,
       ensured (boot d f) mk
       /\ w = after_summary
                (after_round E 128 51
                   (after_round E 48 19
                      (after_round E 16 6 (ready d f mk))))
       /\ renders E 16 6 /\ renders E 48 19 /\ renders E 128 51.
Proof.
  intros Hrun.
  assert (Himp : import_PIL E = None).
  { destruct (import_PIL E) as [e|] eqn:Himp; [|reflexivity].
    exfalso. unfold script, bind at 1 in Hrun.
    destruct (import_guard_raise (boot d f) e Himp) as (out & e' & Hg).
    rewrite Hg in Hrun. discriminate. }
  split; [exact Himp|].
  destruct (script_outcome d f Himp)
    as (mk & _ & _ & [(Hrun' & _ & Hens & Hrounds & _)|(s & e & Hrun' & _)]);
    rewrite Hrun in Hrun'; [|discriminate].
  injection Hrun' as ->. exists mk. split; [exact Hens|]. split; [reflexivity|].
  split; [|split].
  - apply (Hrounds (16, 6)). unfold plan; cbn [In]; tauto.
  - apply (Hrounds (48, 19)). unfold plan; cbn [In]; tauto.
  - apply (Hrounds (128, 51)). unfold plan; cbn [In]; tauto.
Qed.

(** A run on a host that lets it: Pillow imports, [makedirs] succeeds
    having created [mk], the collaborator renders the three icons, no
    icon path is taken by a directory, every write is accepted and
    standard output takes every line. *)
Lemma script_runs d f mk :
  import_PIL E = None ->
  OS.makedirs (mkdir_fault E) output_dir true (boot d f) = (ready d f mk, Ok tt) ->
  (forall round, In round plan ->
     renders E (fst round) (snd round)
     /\ OS.isdir (ready d f mk) (filename (fst round)) = false
     /\ save_fault E (filename (fst round)) = None) ->
  accepts E script_prints ->
  script E (boot d f) =
  (after_summary
     (after_round E 128 51
        (after_round E 48 19
           (after_round E 16 6 (ready d f mk)))), Ok tt).
Proof.
  intros Himp Hmk Hrounds Hacc.
  assert (Hdir : OS.isdir (ready d f mk) output_dir = true).
  { pose proof Hmk as (mk' & Hw & Hens)%makedirs_output_dir_Ok.
    apply ensured_isdir in Hens.
    unfold OS.isdir. rewrite Hw. cbn [dirs set_fs boot].
    now apply bool_decide_eq_true. }
  assert (H16 : In 16 sizes) by in_sizes.
  assert (H48 : In 48 sizes) by in_sizes.
  assert (H128 : In 128 sizes) by in_sizes.
  destruct (Hrounds (16, 6)) as (Hr16 & Hd16 & Hf16); [unfold plan; cbn [In]; tauto|].
  destruct (Hrounds (48, 19)) as (Hr48 & Hd48 & Hf48); [unfold plan; cbn [In]; tauto|].
  destruct (Hrounds (128, 51)) as (Hr128 & Hd128 & Hf128); [unfold plan; cbn [In]; tauto|].
  cbn [fst snd] in Hr16, Hd16, Hf16, Hr48, Hd48, Hf48, Hr128, Hd128, Hf128.
  assert (Hp16 : print_fault E (confirmation 16) = None)
    by (apply Hacc; unfold script_prints, sizes; cbn [map app In]; tauto).
  assert (Hp48 : print_fault E (confirmation 48) = None)
    by (apply Hacc; unfold script_prints, sizes; cbn [map app In]; tauto).
  assert (Hp128 : print_fault E (confirmation 128) = None)
    by (apply Hacc; unfold script_prints, sizes; cbn [map app In]; tauto).
  assert (Hpc : print_fault E (nl +:+ completion_line) = None)
    by (apply Hacc; unfold script_prints, closing_prints, sizes; cbn [map app In]; tauto).
  assert (Hpl : print_fault E location_line = None)
    by (apply Hacc; unfold script_prints, closing_prints, sizes; cbn [map app In]; tauto).
  unfold script, bind at 1.
  pose proof (import_guard_cases (boot d f)) as Hguard.
  rewrite Himp in Hguard. rewrite Hguard.
  unfold bind at 1. rewrite Hmk.
  unfold sizes. cbn [for_each]. unfold bind at 1, bind at 1.
  rewrite (loop_body_runs 16 6 _ H16 font_size_16 Hr16 Hdir Hd16 Hf16 Hp16).
  unfold bind at 1.
  rewrite (loop_body_runs 48 19 (after_round E 16 6 (ready d f mk))
             H48 font_size_48 Hr48 Hdir Hd48 Hf48 Hp48).
  unfold bind at 1.
  rewrite (loop_body_runs 128 51
             (after_round E 48 19 (after_round E 16 6 (ready d f mk)))
             H128 font_size_128 Hr128 Hdir Hd128 Hf128 Hp128).
  unfold ret at 1. unfold bind at 1.
  change (nl +:+ "모든 아이콘이 생성되었습니다!") with (nl +:+ completion_line).
  change ("위치: " +:+ output_dir +:+ "/") with location_line.
  rewrite (print_accepted _ _ Hpc). rewrite (print_accepted _ _ Hpl).
  reflexivity.
Qed.

End Driver.

(** The sample hosts with fonts that lay out and paint everything let a
    run through. *)
Lemma host_obliging (load : string -> Z -> option exn) boxes :
  (forall round, In round plan ->
     renders (host (able_fonts load boxes)) (fst round) (snd round))
  /\ accepts (host (able_fonts load boxes)) script_prints.
Proof.
  split.
  - intros round Hin. apply host_renders.
    unfold plan in Hin. cbn [In] in Hin.
    destruct Hin as [<-|[<-|[<-|[]]]]; cbn [fst]; lia.
  - intros t _. reflexivity.
Qed.

(** The run on an empty disk, on a host that refuses nothing. *)
Lemma script_on_empty_disk (E : Env) :
  import_PIL E = None ->
  mkdir_fault E = no_fault -> save_fault E = no_fault ->
  (forall round, In round plan -> renders E (fst round) (snd round)) ->
  accepts E script_prints ->
  script E (boot ∅ ∅) =
  (after_summary
     (after_round E 128 51
        (after_round E 48 19
           (after_round E 16 6 (ready ∅ ∅ [Mkdir "dist"; Mkdir output_dir])))), Ok tt).
Proof.
  intros Himp Hmkdir Hsave Hrenders Hacc.
  apply script_runs; [exact Himp| | |exact Hacc].
  - rewrite Hmkdir.
    now rewrite (makedirs_output_dir_fresh no_fault (boot ∅ ∅)) by reflexivity.
  - intros round Hin. split; [now apply Hrenders|].
    rewrite Hsave. split; [|reflexivity].
    unfold OS.isdir, ready. cbn [dirs set_fs made].
    apply bool_decide_eq_false.
    unfold plan in Hin. cbn [In] in Hin.
    destruct Hin as [<-|[<-|[<-|[]]]]; cbn [fst];
      [rewrite filename_16 | rewrite filename_48 | rewrite filename_128];
      set_solver.
Qed.

(** The run over the output of an earlier run: the directories exist and
    the three files are overwritten. *)
Lemma script_again (E : Env) (f : gmap string file) :
  import_PIL E = None ->
  save_fault E = no_fault ->
  (forall round, In round plan -> renders E (fst round) (snd round)) ->
  accepts E script_prints ->
  script E (boot {[ "dist"; output_dir ]} f) =
  (after_summary
     (after_round E 128 51
        (after_round E 48 19
           (after_round E 16 6 (ready {[ "dist"; output_dir ]} f [])))), Ok tt).
Proof.
  intros Himp Hsave Hrenders Hacc.
  apply script_runs; [exact Himp| | |exact Hacc].
  - assert (Hdir : OS.isdir (boot {[ "dist"; output_dir ]} f) output_dir = true)
      by (apply bool_decide_eq_true; cbn [dirs boot]; set_solver).
    assert (Hdist : OS.exists_ (boot {[ "dist"; output_dir ]} f) "dist" = true).
    { unfold OS.exists_, OS.isdir. cbn [dirs boot].
      now rewrite bool_decide_eq_true_2 by set_solver. }
    now rewrite (makedirs_output_dir_present _ _ Hdir Hdist).
  - intros round Hin. split; [now apply Hrenders|].
    rewrite Hsave. split; [|reflexivity].
    unfold OS.isdir, ready. cbn [dirs set_fs made].
    apply bool_decide_eq_false.
    unfold plan in Hin. cbn [In] in Hin.
    destruct Hin as [<-|[<-|[<-|[]]]]; cbn [fst];
      [rewrite filename_16 | rewrite filename_48 | rewrite filename_128];
      set_solver.
Qed.

(** The run of the sample host with Arial, on an empty disk. *)
Lemma mac_host_run :
  script mac_host (boot ∅ ∅) =
  (after_summary
     (after_round mac_host 128 51
        (after_round mac_host 48 19
           (after_round mac_host 16 6 (ready ∅ ∅ [Mkdir "dist"; Mkdir output_dir])))),
   Ok tt).
Proof.
  apply script_on_empty_disk; try reflexivity; apply host_obliging.
Qed.

(** C2 (as amended): a run that reaches its end has printed exactly six
    lines: the confirmations for 16, 48 and 128 in that order, each naming
    its file, then an empty line, the completion message, and one last
    line naming the output directory. *)
Theorem successful_run_prints_six_lines (E : Env) (d : gset string)
    (f : gmap string file) (w : World) :
  script E (boot d f) = (w, Ok tt) ->
  lines (stdout w) =
    ["✓ dist/icons/icon16.png 생성 완료";
     "✓ dist/icons/icon48.png 생성 완료";
     "✓ dist/icons/icon128.png 생성 완료";
     "";
     "모든 아이콘이 생성되었습니다!";
     "위치: dist/icons/"]
  /\ length (lines (stdout w)) = 6%nat
  /\ lines (stdout w) = success_lines.
Proof.
  intros (_ & mk & _ & -> & _)%script_Ok.
  cbn [stdout after_summary after_round ready set_fs boot].
  now vm_compute.
Qed.

Lemma successful_run_prints_six_lines_witness :
  exists w,
    script mac_host (boot ∅ ∅) = (w, Ok tt)
    /\ length (lines (stdout w)) = 6%nat.
Proof.
  eexists. split; [exact mac_host_run|].
  eapply (successful_run_prints_six_lines mac_host ∅ ∅).
  exact mac_host_run.
Defined.

(** C2 as stated fails: on a host with Pillow and a writable, empty
    directory the run succeeds and prints six lines, not four; the
    fourth line is empty and the fifth names no directory. *)
Lemma four_lines_counterexample :
  exists w,
    script mac_host (boot ∅ ∅) = (w, Ok tt)
    /\ length (lines (stdout w)) <> 4%nat
    /\ lines (stdout w) =
         ["✓ dist/icons/icon16.png 생성 완료";
          "✓ dist/icons/icon48.png 생성 완료";
          "✓ dist/icons/icon128.png 생성 완료";
          "";
          "모든 아이콘이 생성되었습니다!";
          "위치: dist/icons/"].
Proof.
  eexists. split; [exact mac_host_run|].
  cbn [stdout after_summary after_round ready set_fs boot].
  split; [vm_compute; discriminate | vm_compute; reflexivity].
Qed.

(** What a run that stopped at a step has printed: the confirmations of
    the rounds before, and the first closing line when the second was
    refused. *)
Lemma stopped_lines (E : Env) (d : gset string) (f : gmap string file)
    (mk : list effect) (s : step) (e : exn) :
  raises_at E d f mk s e ->
  lines (stdout (world_at E d f mk s))
  = map confirmation (firstn (confirmed_before s) sizes) ++ closing_before s.
Proof.
  intros Hraise. destruct s as [|k p| |].
  - now vm_compute.
  - destruct Hraise as [Hk _].
    destruct k as [|[|[|k]]]; [| | |lia]; destruct p;
      cbn [world_at stdout written printed after_rounds after_round firstn nth plan
             ready set_fs boot];
      now vm_compute.
  - cbn [world_at stdout written printed after_rounds after_round firstn nth plan
           ready set_fs boot].
    now vm_compute.
  - cbn [world_at stdout written printed after_rounds after_round firstn nth plan
           ready set_fs boot].
    now vm_compute.
Qed.

(** Without the import failure, the output never consists of the two
    lines of the guard: it is empty, or starts with a confirmation, or
    with an empty line. *)
Lemma unguarded_output (E : Env) (d : gset string) (f : gmap string file) :
  (forall e, import_PIL E = Some e -> is_ImportError e = false) ->
  lines (stdout (fst (script E (boot d f)))) <> import_failure_lines.
Proof.
  intros Hno.
  destruct (import_PIL E) as [e|] eqn:Himp.
  { unfold script, bind at 1.
    pose proof (import_guard_cases E (boot d f)) as Hguard.
    rewrite Himp, (Hno e eq_refl) in Hguard. rewrite Hguard. now vm_compute. }
  destruct (script_outcome E d f Himp)
    as (mk & _ & _ & [(Hrun & _)|(s & e & Hrun & Hraise)]); rewrite Hrun; cbn [fst].
  - cbn [stdout after_summary after_rounds plan after_round ready set_fs boot].
    now vm_compute.
  - rewrite (stopped_lines E d f mk s e Hraise).
    destruct s as [|k p| |]; [now vm_compute| |now vm_compute|now vm_compute].
    destruct Hraise as [Hk _].
    destruct k as [|[|[|k]]]; [| | |lia]; now vm_compute.
Qed.

(** The run when Pillow cannot be imported and standard output takes the
    two lines of the guard: the two lines, then [exit(1)]. *)
Lemma script_import_failure (E : Env) (d : gset string) (f : gmap string file) e :
  import_PIL E = Some e -> is_ImportError e = true ->
  accepts E import_failure_lines ->
  script E (boot d f) =
  ({| stdout := ("" +:+ "Pillow 라이브러리가 필요합니다." +:+ nl)
                +:+ "설치: pip install Pillow" +:+ nl;
      dirs := d; files := f; journal := [] |},
   Raise (SystemExit 1)).
Proof.
  intros He Hcls Hacc. unfold script, bind at 1.
  pose proof (import_guard_cases E (boot d f)) as Hguard.
  rewrite He, Hcls in Hguard.
  rewrite (Hacc "Pillow 라이브러리가 필요합니다.") in Hguard
    by (unfold import_failure_lines; cbn [In]; tauto).
  rewrite (Hacc "설치: pip install Pillow") in Hguard
    by (unfold import_failure_lines; cbn [In]; tauto).
  now rewrite Hguard.
Qed.

(** The two lines of the guard on standard output tell that it took
    them. *)
Lemma guarded_output (E : Env) (d : gset string) (f : gmap string file) e :
  import_PIL E = Some e -> is_ImportError e = true ->
  lines (stdout (fst (script E (boot d f)))) = import_failure_lines ->
  accepts E import_failure_lines.
Proof.
  intros He Hcls. unfold script, bind at 1.
  pose proof (import_guard_cases E (boot d f)) as Hguard.
  rewrite He, Hcls in Hguard.
  destruct (print_fault E "Pillow 라이브러리가 필요합니다.") eqn:H1;
    [rewrite Hguard; now vm_compute|].
  destruct (print_fault E "설치: pip install Pillow") eqn:H2;
    [rewrite Hguard; now vm_compute|].
  intros _ t Hin. unfold import_failure_lines in Hin. cbn [In] in Hin.
  destruct Hin as [<-|[<-|[]]]; assumption.
Qed.

(** C4: the import of Pillow raises [ImportError], on a standard output
    that takes the two lines of the guard, if and only if the program
    prints exactly those two lines (the Korean message that the library
    is required, then the installation hint), ends with a non-zero
    status, and has created no directory and written no file. *)
Theorem import_guard_exits_before_output (E : Env) (d : gset string)
    (f : gmap string file) :
  ((exists e, import_PIL E = Some e /\ is_ImportError e = true)
   /\ accepts E import_failure_lines)
  <->
  (lines (stdout (fst (script E (boot d f)))) =
     ["Pillow 라이브러리가 필요합니다."; "설치: pip install Pillow"]
   /\ exit_status (snd (script E (boot d f))) <> 0
   /\ journal (fst (script E (boot d f))) = []
   /\ dirs (fst (script E (boot d f))) = d
   /\ files (fst (script E (boot d f))) = f).
Proof.
  split.
  - intros ((e & He & Hcls) & Hacc).
    rewrite (script_import_failure E d f e He Hcls Hacc).
    cbn [fst snd stdout journal dirs files exit_status].
    split; [vm_compute; reflexivity|].
    split; [discriminate|]. now split.
  - intros (Hout & _).
    destruct (import_PIL E) as [e|] eqn:He.
    + destruct (is_ImportError e) eqn:Hcls.
      * split; [eauto|]. now apply (guarded_output E d f e).
      * exfalso. revert Hout. apply unguarded_output.
        intros e' He'. congruence.
    + exfalso. revert Hout. apply unguarded_output.
      intros e' He'. congruence.
Qed.

(** On a host without Pillow: the two lines, status 1, nothing on disk. *)
Example run_without_pillow :
  lines (stdout (fst (script no_pillow_host (boot ∅ ∅)))) = import_failure_lines
  /\ exit_status (snd (script no_pillow_host (boot ∅ ∅))) = 1
  /\ journal (fst (script no_pillow_host (boot ∅ ∅))) = [].
Proof.
  rewrite (script_import_failure no_pillow_host ∅ ∅ ModuleNotFoundError eq_refl eq_refl)
    by (intros t _; reflexivity).
  cbn [fst snd stdout journal exit_status].
  split; [vm_compute; reflexivity|]. now split.
Qed.



Section SameFonts.

Variables F1 F2 : Fonts.
Hypothesis Hsame : same_fonts F1 F2.

Lemma font_same_fonts fs : font F1 fs = font F2 fs.
Proof.
  destruct Hsame as [Hload _]. specialize (Hload fs).
  unfold font, truetype.
  destruct (truetype_fault F1 arial fs) as [e1|], (truetype_fault F2 arial fs) as [e2|];
    try reflexivity.
  - destruct Hload as [_ H]. now specialize (H eq_refl).
  - destruct Hload as [H _]. now specialize (H eq_refl).
Qed.

Lemma icon_with_same_fonts size fs : icon_with F1 size fs = icon_with F2 size fs.
Proof.
  unfold icon_with. rewrite font_same_fonts.
  destruct Hsame as [_ Hbox]. now rewrite Hbox.
Qed.

End SameFonts.

(** Reading back the three files of a finished run. *)
Lemma three_files_lookup (f : gmap string file) (a b c : file) :
  let m := <[ "dist/icons/icon128.png" := c ]>
             (<[ "dist/icons/icon48.png" := b ]>
                (<[ "dist/icons/icon16.png" := a ]> f)) in
  m !! "dist/icons/icon16.png" = Some a
  /\ m !! "dist/icons/icon48.png" = Some b
  /\ m !! "dist/icons/icon128.png" = Some c.
Proof.
  intros m. subst m. split; [|split].
  - rewrite lookup_insert_ne by discriminate.
    rewrite lookup_insert_ne by discriminate.
    apply lookup_insert_eq.
  - rewrite lookup_insert_ne by discriminate.
    apply lookup_insert_eq.
  - apply lookup_insert_eq.
Qed.

(** C8: nothing random enters a run.  Two runs that reach their end on
    hosts offering the same fonts (whatever the two filesystems they start
    from) leave, for each of the three sizes, the same image in the file
    for that size: the very canvas [create_icon] returns, in any world, on
    either host. *)
Theorem runs_are_reproducible (E1 E2 : Env) (d1 d2 : gset string)
    (f1 f2 : gmap string file) (w1 w2 : World) :
  same_fonts (fonts E1) (fonts E2) ->
  script E1 (boot d1 f1) = (w1, Ok tt) ->
  script E2 (boot d2 f2) = (w2, Ok tt) ->
  forall size, In size sizes ->
    exists img,
      files w1 !! filename size = Some (ImageFile "PNG" img)
      /\ files w2 !! filename size = Some (ImageFile "PNG" img)
      /\ (forall w, create_icon E1 size w = (w, Ok img))
      /\ (forall w, create_icon E2 size w = (w, Ok img)).
Proof.
  intros Hsame (_ & mk1 & _ & -> & Ha16 & Ha48 & Ha128)%script_Ok
    (_ & mk2 & _ & -> & Hb16 & Hb48 & Hb128)%script_Ok size Hin.
  cbn [files after_summary after_round ready set_fs].
  rewrite filename_16, filename_48, filename_128.
  rewrite <- (icon_with_same_fonts (fonts E1) (fonts E2) Hsame 16 6).
  rewrite <- (icon_with_same_fonts (fonts E1) (fonts E2) Hsame 48 19).
  rewrite <- (icon_with_same_fonts (fonts E1) (fonts E2) Hsame 128 51).
  destruct (three_files_lookup f1
              (ImageFile "PNG" (icon_with (fonts E1) 16 6))
              (ImageFile "PNG" (icon_with (fonts E1) 48 19))
              (ImageFile "PNG" (icon_with (fonts E1) 128 51))) as (Ha1 & Hb1 & Hc1).
  destruct (three_files_lookup f2
              (ImageFile "PNG" (icon_with (fonts E1) 16 6))
              (ImageFile "PNG" (icon_with (fonts E1) 48 19))
              (ImageFile "PNG" (icon_with (fonts E1) 128 51))) as (Ha2 & Hb2 & Hc2).
  each_size Hin.
  - exists (icon_with (fonts E1) 16 6). rewrite filename_16.
    split; [exact Ha1|]. split; [exact Ha2|]. split; intros w.
    + apply create_icon_ok; [apply font_size_16|exact Ha16].
    + rewrite (icon_with_same_fonts (fonts E1) (fonts E2) Hsame).
      apply create_icon_ok; [apply font_size_16|exact Hb16].
  - exists (icon_with (fonts E1) 48 19). rewrite filename_48.
    split; [exact Hb1|]. split; [exact Hb2|]. split; intros w.
    + apply create_icon_ok; [apply font_size_48|exact Ha48].
    + rewrite (icon_with_same_fonts (fonts E1) (fonts E2) Hsame).
      apply create_icon_ok; [apply font_size_48|exact Hb48].
  - exists (icon_with (fonts E1) 128 51). rewrite filename_128.
    split; [exact Hc1|]. split; [exact Hc2|]. split; intros w.
    + apply create_icon_ok; [apply font_size_128|exact Ha128].
    + rewrite (icon_with_same_fonts (fonts E1) (fonts E2) Hsame).
      apply create_icon_ok; [apply font_size_128|exact Hb128].
Qed.

(** Running the generator twice: the second run starts from the
    directories and files the first one left. *)
Lemma runs_are_reproducible_witness :
  let w1 :=
    after_summary
      (after_round mac_host 128 51
         (after_round mac_host 48 19
            (after_round mac_host 16 6 (ready ∅ ∅ [Mkdir "dist"; Mkdir output_dir])))) in
  let w2 :=
    after_summary
      (after_round mac_host 128 51
         (after_round mac_host 48 19
            (after_round mac_host 16 6 (ready {[ "dist"; output_dir ]} (files w1) [])))) in
  script mac_host (boot ∅ ∅) = (w1, Ok tt)
  /\ script mac_host (boot {[ "dist"; output_dir ]} (files w1)) = (w2, Ok tt)
  /\ forall size, In size sizes ->
       exists img,
         files w1 !! filename size = Some (ImageFile "PNG" img)
         /\ files w2 !! filename size = Some (ImageFile "PNG" img)
         /\ (forall w, create_icon mac_host size w = (w, Ok img))
         /\ (forall w, create_icon mac_host size w = (w, Ok img)).
Proof.
  intros w1 w2.
  assert (H1 : script mac_host (boot ∅ ∅) = (w1, Ok tt)) by exact mac_host_run.
  assert (H2 : script mac_host (boot {[ "dist"; output_dir ]} (files w1)) = (w2, Ok tt))
    by (apply script_again; try reflexivity; apply host_obliging).
  split; [exact H1|]. split; [exact H2|].
  apply (runs_are_reproducible mac_host mac_host ∅ {[ "dist"; output_dir ]}
           ∅ (files w1) w1 w2); [|exact H1|exact H2].
  split; [intros px; reflexivity | intros fnt; reflexivity].
Defined.

(* ===================================================================== *)
(** ** Every outcome of a run                                             *)
(* ===================================================================== *)

(** The rounds leave everything but their own files alone. *)
Lemma after_rounds_frame (E : Env) (rounds : list (Z * Z)) : forall w,
  stdout (after_rounds E rounds w)
    = fold_left (fun out r => out +:+ confirmation (fst r) +:+ nl) rounds (stdout w)
  /\ dirs (after_rounds E rounds w) = dirs w
  /\ journal (after_rounds E rounds w) = journal w ++ map (write_of E) rounds
  /\ forall p, ~ In p (map (fun r : Z * Z => filename (fst r)) rounds) ->
       files (after_rounds E rounds w) !! p = files w !! p.
Proof.
  induction rounds as [|[size fs] rounds IH]; intros w; cbn [after_rounds].
  - cbn. now rewrite app_nil_r.
  - destruct (IH (after_round E size fs w)) as (Hout & Hdirs & Hj & Hfiles).
    split; [exact Hout|]. split; [exact Hdirs|].
    split.
    + rewrite Hj. cbn [journal after_round map]. now rewrite <- app_assoc.
    + intros p Hp. cbn [map In fst] in Hp.
      rewrite Hfiles by tauto. cbn [files after_round].
      apply lookup_insert_ne. intros Heq. tauto.
Qed.



(** A run whose import raises ends there: the filesystem is untouched
    and the journal empty. *)
Lemma script_import_raise (E : Env) (d : gset string) (f : gmap string file) e :
  import_PIL E = Some e ->
  exists out e',
    script E (boot d f) =
    ({| stdout := out; dirs := d; files := f; journal := [] |}, Raise e').
Proof.
  intros Himp. unfold script, bind at 1.
  destruct (import_guard_raise E (boot d f) e Himp) as (out & e' & ->).
  now exists out, e'.
Qed.

(** Where a run stops, the directories are those [makedirs] left and
    every file but the icon files is as it was. *)
Lemma stopped_frame (E : Env) (d : gset string) (f : gmap string file)
    (mk : list effect) (s : step) (e : exn) :
  raises_at E d f mk s e ->
  dirs (world_at E d f mk s) = made mk ∪ d
  /\ forall p, ~ In p (map filename sizes) ->
       files (world_at E d f mk s) !! p = f !! p.
Proof.
  intros Hraise.
  assert (Hplan : forall k p, (k < 3)%nat ->
            In p (map (fun r : Z * Z => filename (fst r)) (firstn k plan)) ->
            In p (map filename sizes)).
  { intros k p Hk Hp. destruct k as [|[|[|k]]]; [| | |lia]; cbn in Hp |- *; tauto. }
  destruct s as [|k ph| |].
  - split; reflexivity.
  - destruct Hraise as [Hk _].
    destruct (after_rounds_frame E (firstn k plan) (ready d f mk))
      as (_ & Hdirs & _ & Hfiles).
    assert (Hhere : In (filename (fst (nth k plan (0, 0)))) (map filename sizes)).
    { destruct k as [|[|[|k]]]; [| | |lia]; cbn [nth plan fst sizes map In]; tauto. }
    destruct ph; cbn [world_at written dirs files set_fs]; (split; [exact Hdirs|]);
      intros p Hp.
    + apply Hfiles. intros Hin. apply Hp, (Hplan k p Hk), Hin.
    + apply Hfiles. intros Hin. apply Hp, (Hplan k p Hk), Hin.
    + rewrite lookup_insert_ne.
      * apply Hfiles. intros Hin. apply Hp, (Hplan k p Hk), Hin.
      * intros Heq. apply Hp. rewrite <- Heq. exact Hhere.
  - destruct (after_rounds_frame E plan (ready d f mk)) as (_ & Hdirs & _ & Hfiles).
    split; [exact Hdirs|]. intros p Hp. now apply Hfiles.
  - destruct (after_rounds_frame E plan (ready d f mk)) as (_ & Hdirs & _ & Hfiles).
    split; [exact Hdirs|]. intros p Hp. now apply Hfiles.
Qed.

(** X2: whatever the host and however the run ends, it removes no
    directory, creates none but "dist" and [dist/icons], and leaves every
    file other than the three icon files as it was. *)
Theorem run_touches_only_its_outputs (E : Env) (d : gset string)
    (f : gmap string file) :
  d ⊆ dirs (fst (script E (boot d f)))
  /\ dirs (fst (script E (boot d f))) ⊆ {[ "dist"; output_dir ]} ∪ d
  /\ forall p, ~ In p (map filename sizes) ->
       files (fst (script E (boot d f))) !! p = f !! p.
Proof.
  destruct (import_PIL E) as [e|] eqn:Himp.
  { assert (Hrun : dirs (fst (script E (boot d f))) = d
                   /\ files (fst (script E (boot d f))) = f).
    { destruct (script_import_raise E d f e Himp) as (out & e' & ->). now split. }
    destruct Hrun as [-> ->]. split; [set_solver|]. split; [set_solver|]. reflexivity. }
  assert (Hworld : exists mk : list effect,
             created_dirs mk
             /\ dirs (fst (script E (boot d f))) = made mk ∪ d
             /\ forall p, ~ In p (map filename sizes) ->
                  files (fst (script E (boot d f))) !! p = f !! p).
  { destruct (script_outcome E d f Himp)
      as (mk & Hmk & _ & [(Hrun & _)|(s & e & Hrun & Hraise)]); rewrite Hrun; cbn [fst];
      exists mk; (split; [exact Hmk|]).
    - destruct (after_rounds_frame E plan (ready d f mk)) as (_ & Hdirs & _ & Hfiles).
      cbn [dirs files after_summary]. split; [exact Hdirs|].
      intros p Hp. now apply Hfiles.
    - now apply (stopped_frame E d f mk s e). }
  destruct Hworld as (mk & Hmk & Hdirs & Hfiles). rewrite Hdirs.
  split; [set_solver|]. split.
  - destruct Hmk as [-> | [-> | [-> | ->]]]; cbn [made];
      set_unfold; intros x; tauto.
  - exact Hfiles.
Qed.

(* ===================================================================== *)
(** ** Running again                                                      *)
(* ===================================================================== *)

Section Again.

Variable fault : string -> option exn.

(** [makedirs] on a directory that is there while "dist" is not (a
    state only a concurrent change can leave): the inner [mkdir("dist")]
    decides. *)
Lemma makedirs_output_dir_orphan w :
  OS.isdir w output_dir = true -> OS.exists_ w "dist" = false ->
  OS.makedirs fault output_dir true w =
  match fault "dist" with
  | None =>
      (set_fs w ({[ "dist" ]} ∪ dirs w) (files w) (journal w ++ [Mkdir "dist"]), Ok tt)
  | Some e => if is_FileExistsError e then (w, Ok tt) else (w, Raise e)
  end.
Proof.
  intros Hdir Hdist.
  unfold OS.makedirs. change (String.length output_dir) with 10%nat.
  rewrite makedirs_rec_S.
  change (OS.split output_dir) with ("dist", "icons").
  cbv beta iota zeta.
  change (String.eqb "icons" "") with false. cbv beta iota.
  change (String.eqb "icons" "") with false.
  change (String.eqb "dist" "") with false.
  change (String.eqb "icons" ".") with false.
  cbn [negb andb].
  unfold bind at 1. rewrite Hdist. cbn [negb].
  unfold bind at 1, try_except at 1.
  rewrite (makedirs_dist fault 9 w Hdist).
  destruct (fault "dist") as [e|].
  - destruct (is_FileExistsError e); [|reflexivity].
    cbn [ret]. unfold try_except, OS.mkdir, OS.exists_. rewrite Hdir.
    cbn [orb is_OSError]. now rewrite Hdir.
  - cbn [ret]. unfold try_except, OS.mkdir, OS.exists_.
    assert (Hdir' : OS.isdir (set_fs w ({[ "dist" ]} ∪ dirs w) (files w)
                               (journal w ++ [Mkdir "dist"])) output_dir = true).
    { unfold OS.isdir in *. cbn [dirs set_fs].
      apply bool_decide_eq_true in Hdir. apply bool_decide_eq_true.
      apply elem_of_union. now right. }
    rewrite Hdir'. cbn [orb is_OSError]. now rewrite Hdir'.
Qed.

(** Once [makedirs] has succeeded, calling it again changes nothing and
    raises nothing: on any world with the directories the first call left
    and the same entry, or none, at "dist". *)
Lemma makedirs_output_dir_again w w' w2 :
  OS.makedirs fault output_dir true w = (w', Ok tt) ->
  dirs w2 = dirs w' ->
  files w2 !! "dist" = files w !! "dist" ->
  OS.makedirs fault output_dir true w2 = (w2, Ok tt).
Proof.
  intros Hfirst Hdirs Hfile.
  assert (Hexists : forall v, OS.isdir v "dist" = true -> OS.exists_ v "dist" = true)
    by (intros v Hv; unfold OS.exists_; now rewrite Hv).
  assert (Hin : forall p, p ∈ dirs w' -> OS.isdir w2 p = true)
    by (intros p Hp; unfold OS.isdir; rewrite Hdirs; now apply bool_decide_eq_true).
  pose proof Hfirst as (mk & Hw' & Hens)%makedirs_output_dir_Ok.
  assert (Hmade : dirs w' = made mk ∪ dirs w) by now rewrite Hw'.
  destruct Hens as [[-> Hdir]|[[-> [Hdist _]]|[[-> _]|[-> [_ Hdir]]]]].
  - (* nothing was created *)
    assert (Hisdir : forall p, OS.isdir w2 p = OS.isdir w p).
    { intros p. unfold OS.isdir. rewrite Hdirs, Hmade. cbn [made].
      now rewrite (left_id_L ∅ (∪)). }
    assert (Hex : OS.exists_ w2 "dist" = OS.exists_ w "dist")
      by (unfold OS.exists_; now rewrite Hisdir, Hfile).
    assert (Hdir2 : OS.isdir w2 output_dir = true) by now rewrite Hisdir.
    destruct (OS.exists_ w "dist") eqn:Hdist.
    + now apply makedirs_output_dir_present.
    + rewrite (makedirs_output_dir_orphan w Hdir Hdist) in Hfirst.
      rewrite (makedirs_output_dir_orphan w2 Hdir2 Hex).
      destruct (fault "dist") as [e|].
      * destruct (is_FileExistsError e); [reflexivity|discriminate].
      * exfalso. injection Hfirst as Hfirst.
        apply (f_equal journal) in Hfirst. rewrite Hw' in Hfirst.
        cbn [journal set_fs] in Hfirst.
        apply (f_equal (@length effect)) in Hfirst.
        rewrite !length_app in Hfirst. cbn in Hfirst. lia.
  - apply makedirs_output_dir_present.
    + apply Hin. rewrite Hmade. cbn [made]. set_unfold. tauto.
    + apply Hexists, Hin. rewrite Hmade. apply elem_of_union. right.
      now apply bool_decide_eq_true in Hdist.
  - apply makedirs_output_dir_present.
    + apply Hin. rewrite Hmade. cbn [made]. set_unfold. tauto.
    + apply Hexists, Hin. rewrite Hmade. cbn [made]. set_unfold. tauto.
  - apply makedirs_output_dir_present.
    + apply Hin. rewrite Hmade. apply elem_of_union. right.
      now apply bool_decide_eq_true in Hdir.
    + apply Hexists, Hin. rewrite Hmade. cbn [made]. set_unfold. tauto.
Qed.

End Again.

(** The three icon files of a finished run, written once more onto the
    map that holds them, leave the map as it is. *)
Lemma three_files_again (f : gmap string file) (a b c : file) :
  let m := <[ "dist/icons/icon128.png" := c ]>
             (<[ "dist/icons/icon48.png" := b ]>
                (<[ "dist/icons/icon16.png" := a ]> f)) in
  <[ "dist/icons/icon128.png" := c ]>
    (<[ "dist/icons/icon48.png" := b ]>
       (<[ "dist/icons/icon16.png" := a ]> m)) = m.
Proof.
  intros m. destruct (three_files_lookup f a b c) as (Ha & Hb & Hc). fold m in Ha, Hb, Hc.
  rewrite (insert_id m _ _ Ha), (insert_id m _ _ Hb). apply insert_id, Hc.
Qed.

(** X3: running the script again on what a successful run left (same
    host) succeeds as well, creates no directory, writes the same three
    files with the same content, prints the same text, and leaves the
    directories and files exactly as the first run left them. *)
Theorem second_run_changes_nothing (E : Env) (d : gset string)
    (f : gmap string file) (w1 : World) :
  script E (boot d f) = (w1, Ok tt) ->
  exists w2,
    script E (boot (dirs w1) (files w1)) = (w2, Ok tt)
    /\ dirs w2 = dirs w1
    /\ files w2 = files w1
    /\ journal w2 = map (write_of E) plan
    /\ stdout w2 = stdout w1.
Proof.
  intros Hrun.
  pose proof Hrun as (Himp & _)%script_Ok.
  destruct (script_outcome E d f Himp)
    as (mk & _ & _ & [(Hrun' & Hmk & _ & Hrounds & Hacc)|(s & e & Hrun' & _)]);
    rewrite Hrun in Hrun'; [|discriminate].
  injection Hrun' as ->.
  set (d1 := dirs (after_summary (after_rounds E plan (ready d f mk)))).
  set (f1 := files (after_summary (after_rounds E plan (ready d f mk)))).
  assert (Hd1 : d1 = made mk ∪ d) by reflexivity.
  assert (Hboot : boot d1 f1 = ready d1 f1 []).
  { unfold ready, set_fs, boot. cbn [stdout made]. f_equal.
    now rewrite (left_id_L ∅ (∪)). }
  assert (Hmk2 : OS.makedirs (mkdir_fault E) output_dir true (boot d1 f1)
                 = (ready d1 f1 [], Ok tt)).
  { rewrite <- Hboot.
    apply (makedirs_output_dir_again (mkdir_fault E) (boot d f) (ready d f mk));
      [exact Hmk | reflexivity |].
    cbn [files boot]. unfold f1.
    cbn [files after_summary after_rounds plan after_round ready set_fs].
    rewrite filename_16, filename_48, filename_128.
    now rewrite !lookup_insert_ne by discriminate. }
  exists (after_summary (after_rounds E plan (ready d1 f1 []))).
  split.
  { apply script_runs; [exact Himp | exact Hmk2 | | exact Hacc].
    intros round Hin. destruct (Hrounds round Hin) as (Hr & Hdir & Hfault).
    split; [exact Hr|]. split; [|exact Hfault].
    rewrite <- Hdir. unfold OS.isdir, ready. cbn [dirs set_fs made].
    apply bool_decide_ext. rewrite Hd1. set_unfold. tauto. }
  split.
  { cbn [dirs after_summary after_rounds plan after_round ready set_fs made].
    now rewrite (left_id_L ∅ (∪)). }
  split.
  { unfold f1.
    cbn [files after_summary after_rounds plan after_round ready set_fs].
    rewrite filename_16, filename_48, filename_128.
    apply three_files_again. }
  split; reflexivity.
Qed.

Lemma second_run_changes_nothing_witness :
  let w1 :=
    after_summary
      (after_round mac_host 128 51
         (after_round mac_host 48 19
            (after_round mac_host 16 6 (ready ∅ ∅ [Mkdir "dist"; Mkdir output_dir])))) in
  script mac_host (boot ∅ ∅) = (w1, Ok tt)
  /\ exists w2,
       script mac_host (boot (dirs w1) (files w1)) = (w2, Ok tt)
       /\ dirs w2 = dirs w1
       /\ files w2 = files w1
       /\ journal w2 = map (write_of mac_host) plan
       /\ stdout w2 = stdout w1.
Proof.
  intros w1.
  assert (H1 : script mac_host (boot ∅ ∅) = (w1, Ok tt)) by exact mac_host_run.
  split; [exact H1|].
  apply (second_run_changes_nothing mac_host ∅ ∅ w1 H1).
Defined.

(* ===================================================================== *)
(** ** The icon paths                                                     *)
(* ===================================================================== *)

Section Paths.

Lemma string_app_nil (t : string) : "" +:+ t = t.
Proof. reflexivity. Qed.

Lemma string_app_cons a (s t : string) : String a s +:+ t = String a (s +:+ t).
Proof. reflexivity. Qed.

Lemma string_app_assoc (s1 s2 s3 : string) :
  (s1 +:+ s2) +:+ s3 = s1 +:+ (s2 +:+ s3).
Proof.
  induction s1 as [|a s1 IH]; [reflexivity|].
  now rewrite !string_app_cons, IH.
Qed.

Lemma string_length_app (s1 s2 : string) :
  String.length (s1 +:+ s2) = (String.length s1 + String.length s2)%nat.
Proof.
  induction s1 as [|a s1 IH]; [reflexivity|].
  rewrite string_app_cons. cbn [String.length]. now rewrite IH.
Qed.

Lemma string_app_inv_tail (t : string) : forall s1 s2,
  s1 +:+ t = s2 +:+ t -> s1 = s2.
Proof.
  induction s1 as [|a s1 IH]; intros [|b s2] Heq;
    rewrite ?string_app_nil, ?string_app_cons in Heq.
  - reflexivity.
  - apply (f_equal String.length) in Heq. cbn [String.length] in Heq.
    rewrite string_length_app in Heq. lia.
  - apply (f_equal String.length) in Heq. cbn [String.length] in Heq.
    rewrite string_length_app in Heq. lia.
  - injection Heq as -> Heq. f_equal. now apply IH.
Qed.

Lemma string_forall_app P (s1 s2 : string) :
  string_forall P (s1 +:+ s2) = string_forall P s1 && string_forall P s2.
Proof.
  induction s1 as [|a s1 IH]; [reflexivity|].
  rewrite string_app_cons. cbn [string_forall]. now rewrite IH, andb_assoc.
Qed.

Lemma string_forall_impl (P Q : ascii -> bool) (s : string) :
  (forall c, P c = true -> Q c = true) ->
  string_forall P s = true -> string_forall Q s = true.
Proof.
  intros HPQ. induction s as [|a s IH]; cbn; [reflexivity|].
  intros [Ha Hs]%andb_true_iff. rewrite (HPQ a Ha). now apply IH.
Qed.

(** [str] writes digits, after a minus sign for a negative number. *)
Lemma pretty_N_char_digit x : is_digit (pretty_N_char x) = true.
Proof. unfold pretty_N_char. repeat case_match; reflexivity. Qed.

Lemma pretty_N_go_digits x : forall s,
  string_forall is_digit s = true -> string_forall is_digit (pretty_N_go x s) = true.
Proof.
  induction (N.lt_wf_0 x) as [x _ IH]; intros s Hs.
  destruct (N.eq_dec x 0%N) as [->|Hx]; [now rewrite pretty_N_go_0|].
  rewrite pretty_N_go_step by lia.
  apply IH; [apply N.div_lt; lia|].
  cbn [string_forall]. now rewrite pretty_N_char_digit.
Qed.

Lemma pretty_N_digits (x : N) : string_forall is_digit (pretty x) = true.
Proof.
  unfold pretty, pretty_N. destruct (decide (x = 0%N)); [reflexivity|].
  now apply pretty_N_go_digits.
Qed.

Lemma str_chars (n : Z) : string_forall is_numeral_char (str n) = true.
Proof.
  assert (Hd : forall c, is_digit c = true -> is_numeral_char c = true)
    by (intros c Hc; unfold is_numeral_char; now rewrite Hc).
  unfold str, pretty, pretty_Z. destruct n as [|p|p].
  - reflexivity.
  - apply (string_forall_impl is_digit); [exact Hd|]. apply pretty_N_digits.
  - rewrite string_app_cons, string_app_nil. cbn [string_forall].
    apply andb_true_iff. split; [reflexivity|].
    apply (string_forall_impl is_digit); [exact Hd|]. apply pretty_N_digits.
Qed.

(** Cutting at the last separator. *)
Lemma rcut_None c (s : string) :
  string_forall (fun a => negb (Ascii.eqb a c)) s = true -> OS.rcut c s = None.
Proof.
  induction s as [|a s IH]; cbn; [reflexivity|].
  intros [Ha Hs]%andb_true_iff. rewrite (IH Hs).
  now apply negb_true_iff in Ha as ->.
Qed.

Lemma rcut_last c (t : string) : forall s,
  OS.rcut c t = None ->
  OS.rcut c (s +:+ String c t) = Some (s +:+ String c EmptyString, t).
Proof.
  intros s Ht. induction s as [|a s IH].
  - rewrite string_app_nil. cbn [OS.rcut]. now rewrite Ht, Ascii.eqb_refl.
  - rewrite string_app_cons. cbn [OS.rcut]. now rewrite IH.
Qed.

(** The file name of an icon: no slash in it, and it ends in ".png". *)
Lemma icon_name_no_slash (size : Z) :
  OS.rcut "/" ("icon" +:+ str size +:+ ".png") = None.
Proof.
  apply rcut_None. rewrite !string_forall_app.
  apply andb_true_iff. split; [reflexivity|].
  apply andb_true_iff. split; [|reflexivity].
  apply (string_forall_impl is_numeral_char); [|apply str_chars].
  intros c. unfold is_numeral_char, is_digit.
  destruct (Ascii.eqb_spec c "/") as [->|Hne]; [discriminate|].
  reflexivity.
Qed.

(** X7: for every integer size, the path [f"{output_dir}/icon{size}.png"]
    lies directly in [dist/icons], its extension is ".png", so that
    [save] encodes it as PNG; and two different sizes never share a path. *)
Theorem icon_path_shape :
  (forall size,
     OS.split (filename size) = (output_dir, "icon" +:+ str size +:+ ".png")
     /\ OS.dirname (filename size) = output_dir
     /\ OS.extension (filename size) = ".png"
     /\ format_of_extension (OS.lower (OS.extension (filename size))) = Some "PNG")
  /\ (forall size1 size2, filename size1 = filename size2 -> size1 = size2).
Proof.
  split.
  - intros size.
    assert (Hsplit : OS.split (filename size)
                     = (output_dir, "icon" +:+ str size +:+ ".png")).
    { unfold OS.split.
      change (filename size)
        with ("dist/icons" +:+ String "/" ("icon" +:+ str size +:+ ".png")).
      now rewrite (rcut_last "/" _ "dist/icons" (icon_name_no_slash size)). }
    assert (Hext : OS.extension (filename size) = ".png").
    { unfold OS.extension. rewrite Hsplit. cbn [snd].
      replace ("icon" +:+ str size +:+ ".png")
        with (("icon" +:+ str size) +:+ String "." "png")
        by (now rewrite string_app_assoc).
      rewrite (rcut_last "." "png" ("icon" +:+ str size) eq_refl).
      rewrite !string_app_cons. cbn [OS.rstrip].
      change (Ascii.eqb "i" ".") with false.
      now rewrite andb_false_r. }
    split; [exact Hsplit|]. split; [unfold OS.dirname; now rewrite Hsplit|].
    split; [exact Hext|]. now rewrite Hext.
  - intros size1 size2 Heq. unfold filename in Heq.
    apply (inj (String.app output_dir)) in Heq.
    apply (inj (String.app "/icon")) in Heq.
    apply string_app_inv_tail in Heq.
    now apply (inj pretty) in Heq.
Qed.

End Paths.

(* ===================================================================== *)
(** ** Further properties of [create_icon]                                *)
(* ===================================================================== *)

(** X4: the font size computed for a positive size is never negative;
    for sizes up to 65536 it is smaller than the size, and it is zero
    exactly for the sizes 1 and 2, for which the loader is asked for a
    font of size 0. *)
Theorem font_size_range (size fs : Z) :
  0 < size ->
  font_size size = Ok fs ->
  0 <= fs
  /\ (size <= 65536 -> fs < size /\ (fs = 0 <-> size <= 2)).
Proof.
  intros Hpos Hfs. split.
  - unfold font_size, int_mul_float in Hfs.
    destruct (float_of_int size) as [x|e] eqn:Hx; [|discriminate].
    cbn [rbind] in Hfs.
    destruct (SFmul prec emax x float_0_4) as [s|s| |s m e] eqn:Hmul;
      cbn [int_of_float] in Hfs; try discriminate.
    + injection Hfs as <-. lia.
    + assert (s = false) as ->.
      { apply (mul_0_4_sign x s m e); [|exact Hmul].
        intros s' m' e'. now apply (float_of_int_sign size x). }
      injection Hfs as <-. cbn [signed cond_Zopp].
      destruct (0 <=? e) eqn:He.
      * apply Z.mul_nonneg_nonneg; [lia|]. apply Z.pow_nonneg. lia.
      * apply Z.quot_pos; [lia|]. apply Z.pow_pos_nonneg; lia.
  - intros Hle.
    rewrite (font_size_exact_small size ltac:(lia)) in Hfs. injection Hfs as <-.
    pose proof (Z.div_mod (2 * size) 5 ltac:(lia)).
    pose proof (Z.mod_pos_bound (2 * size) 5 ltac:(lia)).
    lia.
Qed.

Lemma font_size_range_witness :
  font_size 2 = Ok 0 /\ font_size 3 = Ok 1
  /\ 0 <= 1 /\ (3 <= 65536 -> 1 < 3 /\ (1 = 0 <-> 3 <= 2)).
Proof.
  split; [vm_compute; reflexivity|]. split; [vm_compute; reflexivity|].
  apply (font_size_range 3 1); [lia | vm_compute; reflexivity].
Defined.

(** X5: when the measured box is no wider and no taller than the
    canvas, the label is drawn at an origin on the canvas, with room for
    the box: [0 <= x], [x + width <= size], [0 <= y],
    [y + height <= size]; if moreover the box starts at the anchor, the
    ink lies on the canvas, all four margins being non-negative. *)
Theorem fitting_label_stays_on_canvas (E : Env) (size fs : Z) (w : World) :
  font_size size = Ok fs ->
  renders E size fs ->
  let F := fonts E in
  let glyphs := getbbox F (font F fs) text in
  text_width glyphs <= size ->
  text_height glyphs <= size ->
  exists x y,
    create_icon E size w
      = (w, Ok (labelled (blank "RGB" (size, size) "#4A90E2")
                  (x, y) text "white" (font F fs)))
    /\ 0 <= x /\ x + text_width glyphs <= size
    /\ 0 <= y /\ y + text_height glyphs <= size
    /\ (b_left glyphs = 0 -> b_top glyphs = 0 ->
        0 <= margin_left F (label_op F size fs)
        /\ 0 <= margin_right F size (label_op F size fs)
        /\ 0 <= margin_top F (label_op F size fs)
        /\ 0 <= margin_bottom F size (label_op F size fs)).
Proof.
  intros Hfs Hr F glyphs Hw Hh. subst F.
  exists ((size - text_width glyphs) / 2), ((size - text_height glyphs) / 2).
  split.
  { rewrite (create_icon_ok E size fs w Hfs Hr). unfold icon_with, floordiv.
    now rewrite text_width_box_at, text_height_box_at. }
  pose proof (Z.div_mod (size - text_width glyphs) 2 ltac:(lia)) as Hx.
  pose proof (Z.mod_pos_bound (size - text_width glyphs) 2 ltac:(lia)) as Hxr.
  pose proof (Z.div_mod (size - text_height glyphs) 2 ltac:(lia)) as Hy.
  pose proof (Z.mod_pos_bound (size - text_height glyphs) 2 ltac:(lia)) as Hyr.
  split; [lia|]. split; [lia|]. split; [lia|]. split; [lia|].
  intros Hl Ht.
  unfold margin_left, margin_right, margin_top, margin_bottom, ink_box, box_at,
    label_op, floordiv.
  cbn [op_xy op_text op_font b_left b_right b_top b_bottom fst snd].
  fold glyphs.
  replace (text_width (box_at glyphs (0, 0))) with (text_width glyphs)
    by (symmetry; apply text_width_box_at).
  replace (text_height (box_at glyphs (0, 0))) with (text_height glyphs)
    by (symmetry; apply text_height_box_at).
  unfold text_width, text_height in *. lia.
Qed.

Lemma fitting_label_stays_on_canvas_witness :
  exists x y,
    create_icon mac_host 48 (boot ∅ ∅)
      = (boot ∅ ∅, Ok (labelled (blank "RGB" (48, 48) "#4A90E2")
                         (x, y) text "white" (font (fonts mac_host) 19)))
    /\ 0 <= x /\ x + 28 <= 48 /\ 0 <= y /\ y + 15 <= 48.
Proof.
  destruct (fitting_label_stays_on_canvas mac_host 48 19 (boot ∅ ∅))
    as (x & y & Hrun & Hx0 & Hx1 & Hy0 & Hy1 & _);
    [vm_compute; reflexivity | apply host_renders; lia
     | vm_compute; discriminate | vm_compute; discriminate |].
  exists x, y. split; [exact Hrun|]. split; [exact Hx0|]. split; [exact Hx1|].
  split; [exact Hy0|exact Hy1].
Defined.

(* ===================================================================== *)
(** ** Runs that cannot create the output directory                       *)
(* ===================================================================== *)

(** X6: [exist_ok=True] tolerates a directory only.  When [dist/icons]
    exists as a regular file, the run ends with [FileExistsError] before
    anything is printed or written. *)
Theorem output_dir_taken_by_a_file (E : Env) (d : gset string)
    (f : gmap string file) (x : file) :
  import_PIL E = None ->
  f !! output_dir = Some x ->
  OS.isdir (boot d f) output_dir = false ->
  OS.exists_ (boot d f) "dist" = true ->
  script E (boot d f) = (boot d f, Raise FileExistsError).
Proof.
  intros Himp Hfile Hdir Hdist.
  assert (Hmk : OS.makedirs (mkdir_fault E) output_dir true (boot d f)
                = (boot d f, Raise FileExistsError)).
  { unfold OS.makedirs. change (String.length output_dir) with 10%nat.
    rewrite makedirs_rec_S.
    change (OS.split output_dir) with ("dist", "icons").
    cbv beta iota zeta.
    change (String.eqb "icons" "") with false. cbv beta iota.
    change (String.eqb "icons" "") with false.
    change (String.eqb "dist" "") with false.
    cbn [negb andb].
    unfold bind at 1. rewrite Hdist. cbn [negb].
    unfold try_except, OS.mkdir, OS.exists_. rewrite Hdir.
    cbn [orb files boot]. rewrite Hfile. cbn [is_OSError]. now rewrite Hdir. }
  unfold script, bind at 1.
  pose proof (import_guard_cases E (boot d f)) as Hguard.
  rewrite Himp in Hguard. rewrite Hguard. unfold bind at 1. now rewrite Hmk.
Qed.

Lemma output_dir_taken_by_a_file_witness :
  script mac_host (boot {[ "dist" ]} {[ output_dir := OtherFile "" ]})
  = (boot {[ "dist" ]} {[ output_dir := OtherFile "" ]}, Raise FileExistsError).
Proof.
  apply (output_dir_taken_by_a_file mac_host _ _ (OtherFile ""));
    [reflexivity | apply lookup_singleton_eq | reflexivity | reflexivity].
Defined.

(** X8: when "dist" exists as a regular file, the run ends with
    [NotADirectoryError] before anything is printed or written. *)
Theorem dist_taken_by_a_file (E : Env) (d : gset string)
    (f : gmap string file) (x : file) :
  import_PIL E = None ->
  f !! "dist" = Some x ->
  OS.isdir (boot d f) "dist" = false ->
  OS.exists_ (boot d f) output_dir = false ->
  script E (boot d f) = (boot d f, Raise NotADirectoryError).
Proof.
  intros Himp Hfile Hdir Hout.
  assert (Hdist : OS.exists_ (boot d f) "dist" = true).
  { unfold OS.exists_. cbn [files boot]. rewrite Hfile. apply orb_true_r. }
  assert (Hout' : OS.isdir (boot d f) output_dir = false).
  { unfold OS.exists_ in Hout. now apply orb_false_iff in Hout as [? _]. }
  assert (Hmk : OS.makedirs (mkdir_fault E) output_dir true (boot d f)
                = (boot d f, Raise NotADirectoryError)).
  { unfold OS.makedirs. change (String.length output_dir) with 10%nat.
    rewrite makedirs_rec_S.
    change (OS.split output_dir) with ("dist", "icons").
    cbv beta iota zeta.
    change (String.eqb "icons" "") with false. cbv beta iota.
    change (String.eqb "icons" "") with false.
    change (String.eqb "dist" "") with false.
    cbn [negb andb].
    unfold bind at 1. rewrite Hdist. cbn [negb].
    unfold try_except, OS.mkdir. rewrite Hout.
    unfold OS.parent_ok, OS.parent_error.
    change (OS.dirname output_dir) with "dist".
    change (String.eqb "dist" "") with false.
    rewrite Hdir, Hdist. cbn [orb negb is_OSError]. now rewrite Hout'. }
  unfold script, bind at 1.
  pose proof (import_guard_cases E (boot d f)) as Hguard.
  rewrite Himp in Hguard. rewrite Hguard. unfold bind at 1. now rewrite Hmk.
Qed.

Lemma dist_taken_by_a_file_witness :
  script mac_host (boot ∅ {[ "dist" := OtherFile "" ]})
  = (boot ∅ {[ "dist" := OtherFile "" ]}, Raise NotADirectoryError).
Proof.
  apply (dist_taken_by_a_file mac_host _ _ (OtherFile ""));
    [reflexivity | apply lookup_singleton_eq | reflexivity | reflexivity].
Defined.

(* ===================================================================== *)
(** ** Runs that stop half-way                                            *)
(* ===================================================================== *)

(** On [full_disk_host], from an empty disk: both directories are made,
    the first icon is written and confirmed, the write of the second
    raises and ends the run; [icon48.png] and [icon128.png] do not
    exist and no closing line is printed. *)
Example run_on_full_disk :
  script full_disk_host (boot ∅ ∅)
  = (after_round full_disk_host 16 6 (ready ∅ ∅ [Mkdir "dist"; Mkdir output_dir]),
     Raise OSError).
Proof.
  assert (Hr : forall size fs, 0 <= size < 2 ^ 31 -> renders full_disk_host size fs)
    by (intros size fs Hsize; apply (host_renders (fun _ _ => None) sample_getbbox size fs Hsize)).
  unfold script, bind at 1.
  pose proof (import_guard_cases full_disk_host (boot ∅ ∅)) as Hguard.
  cbn [import_PIL full_disk_host] in Hguard. rewrite Hguard.
  unfold bind at 1.
  rewrite (makedirs_output_dir_fresh no_fault (boot ∅ ∅)) by reflexivity.
  change (set_fs (boot ∅ ∅) ({[ output_dir ]} ∪ ({[ "dist" ]} ∪ dirs (boot ∅ ∅)))
            (files (boot ∅ ∅)) (journal (boot ∅ ∅) ++ [Mkdir "dist"; Mkdir output_dir]))
    with (ready ∅ ∅ [Mkdir "dist"; Mkdir output_dir]).
  unfold bind at 1. cbn [for_each sizes]. unfold bind at 1.
  rewrite (loop_body_runs full_disk_host 16 6);
    [ | in_sizes | exact font_size_16 | apply Hr; lia
      | apply bool_decide_eq_true; unfold ready; cbn [dirs set_fs made]; set_solver
      | apply bool_decide_eq_false; unfold ready; cbn [dirs set_fs made];
        rewrite filename_16; set_solver
      | reflexivity | reflexivity ].
  unfold bind at 1.
  rewrite (loop_body_refused full_disk_host 48 19 _ OSError);
    [ reflexivity | in_sizes | exact font_size_48 | apply Hr; lia
      | apply bool_decide_eq_true; unfold ready; cbn [dirs after_round set_fs made];
        set_solver
      | apply bool_decide_eq_false; unfold ready; cbn [dirs after_round set_fs made];
        rewrite filename_48; set_solver
      | reflexivity ].
Qed.

(** A round whose confirmation standard output refuses: the file is
    written, nothing is printed, and the exception of [print] leaves the
    round. *)
Lemma loop_body_unconfirmed (E : Env) (size fs : Z) (w : World) (e : exn) :
  In size sizes -> font_size size = Ok fs ->
  renders E size fs ->
  OS.isdir w output_dir = true ->
  OS.isdir w (filename size) = false ->
  save_fault E (filename size) = None ->
  print_fault E (confirmation size) = Some e ->
  loop_body E size w = (written E (size, fs) w, Raise e).
Proof.
  intros Hin Hfs Hr Hdir Hfree Hfault Hprint.
  destruct (loop_body_cases E size fs w Hin Hfs)
    as [(e' & _ & Hc)|[(e' & _ & _ & Hc)|[(e' & He & _ & _ & _ & Hc)|(_ & _ & _ & _ & Hc)]]].
  - rewrite (create_icon_ok E size fs w Hfs Hr) in Hc. discriminate.
  - exfalso. revert Hc. unfold OS.save, OS.parent_ok.
    assert (Hfmt : format_of_extension (OS.lower (OS.extension (filename size))) = Some "PNG"
                   /\ OS.dirname (filename size) = output_dir).
    { each_size Hin; now vm_compute. }
    destruct Hfmt as [-> ->]. rewrite Hfree, Hdir, Hfault, orb_true_r. discriminate.
  - unfold print in Hc. rewrite Hprint in Hc. injection Hc as <-. exact He.
  - congruence.
Qed.

(** On [ascii_terminal_host], from an empty disk: both directories are
    made and the first icon is written; its confirmation starts with a
    check mark, which an ASCII stream cannot take, so the run ends there
    with [UnicodeEncodeError], one file on disk and nothing printed. *)
Example run_on_ascii_terminal :
  script ascii_terminal_host (boot ∅ ∅)
  = (written ascii_terminal_host (16, 6) (ready ∅ ∅ [Mkdir "dist"; Mkdir output_dir]),
     Raise UnicodeEncodeError).
Proof.
  unfold script, bind at 1.
  pose proof (import_guard_cases ascii_terminal_host (boot ∅ ∅)) as Hguard.
  cbn [import_PIL ascii_terminal_host] in Hguard. rewrite Hguard.
  unfold bind at 1.
  rewrite (makedirs_output_dir_fresh no_fault (boot ∅ ∅)) by reflexivity.
  change (set_fs (boot ∅ ∅) ({[ output_dir ]} ∪ ({[ "dist" ]} ∪ dirs (boot ∅ ∅)))
            (files (boot ∅ ∅)) (journal (boot ∅ ∅) ++ [Mkdir "dist"; Mkdir output_dir]))
    with (ready ∅ ∅ [Mkdir "dist"; Mkdir output_dir]).
  unfold bind at 1. cbn [for_each sizes]. unfold bind at 1.
  rewrite (loop_body_unconfirmed ascii_terminal_host 16 6 _ UnicodeEncodeError);
    [ reflexivity | in_sizes | exact font_size_16
      | split; [reflexivity | now split]
      | apply bool_decide_eq_true; unfold ready; cbn [dirs set_fs made]; set_solver
      | apply bool_decide_eq_false; unfold ready; cbn [dirs set_fs made];
        rewrite filename_16; set_solver
      | reflexivity | now vm_compute ].
Qed.

